(** * pywikiai: reconciliation of P1433 ("published in") on Wikidata items
    against the page hierarchy of Czech Wikisource.

    The development embeds the two scripts of the repository,
    [check_P1433.py] and [harvest_pap1.py], as programs of a small
    state-and-exception monad over an explicit model of the external
    collaborators (page store, knowledge base, operator terminal), and
    then states and proves properties of the embedded programs.

    Conventions of the embedding:
    - a page is identified with its title, taken as already normalised, so
      that [pywikibot.Page(site, t).title()] is [t];
    - [ItemPage] and [Claim] objects are always true in a boolean context,
      [None] and the empty string are false;
    - every call to the page store, to the knowledge base or to the
      terminal is recorded, in order, in the trace of the run;
    - [input()] reads the next line of a finite list of lines and raises
      [EOFError] when the list is exhausted;
    - strings are byte strings: [strip] and [lower] act on ASCII. *)

From Stdlib Require Import String Ascii.
From stdpp Require Import base option list gmap strings.

Local Open Scope string_scope.

(** ** Python string primitives used by the scripts *)

Module Py.

(** [s.split("/")]: never returns the empty list. *)
Fixpoint split_slash (s : string) : list string :=
  match s with
  | EmptyString => [EmptyString]
  | String c s' =>
      if Ascii.eqb c "/" then EmptyString :: split_slash s'
      else match split_slash s' with
           | [] => [String c EmptyString]
           | p :: ps => String c p :: ps
           end
  end.

(** ["/".join(l)]. *)
Fixpoint join_slash (l : list string) : string :=
  match l with
  | [] => EmptyString
  | [x] => x
  | x :: xs => x ++ "/" ++ join_slash xs
  end.

(** Truth value of a string, and of an optional string ([None] is false). *)
Definition truthy (s : string) : bool :=
  match s with EmptyString => false | _ => true end.

Definition truthy_opt (o : option string) : bool :=
  match o with Some s => truthy s | None => false end.

(** ASCII white space, as removed by [str.strip()]. *)
Definition is_space (c : ascii) : bool :=
  let n := nat_of_ascii c in
  Nat.eqb n 32 || (Nat.leb 9 n && Nat.leb n 13) || (Nat.leb 28 n && Nat.leb n 31).

Fixpoint lstrip (s : string) : string :=
  match s with
  | EmptyString => EmptyString
  | String c s' => if is_space c then lstrip s' else s
  end.

Fixpoint rstrip (s : string) : string :=
  match s with
  | EmptyString => EmptyString
  | String c s' =>
      match rstrip s' with
      | EmptyString => if is_space c then EmptyString else String c EmptyString
      | r => String c r
      end
  end.

Definition strip (s : string) : string := rstrip (lstrip s).

(** [str.lower()] on the ASCII letters; other bytes are kept. *)
Definition lower_ascii (c : ascii) : ascii :=
  let n := nat_of_ascii c in
  if Nat.leb 65 n && Nat.leb n 90 then ascii_of_nat (n + 32) else c.

Fixpoint lower (s : string) : string :=
  match s with
  | EmptyString => EmptyString
  | String c s' => String (lower_ascii c) (lower s')
  end.

(** [p in s] for strings: [p] occurs as a contiguous substring of [s]. *)
Fixpoint contains (p s : string) : bool :=
  String.prefix p s ||
  match s with
  | EmptyString => false
  | String _ s' => contains p s'
  end.

(** [s.startswith(p)]. *)
Definition startswith (s p : string) : bool := String.prefix p s.

Definition is_digit (c : ascii) : bool :=
  let n := nat_of_ascii c in Nat.leb 48 n && Nat.leb n 57.

Fixpoint all_digits (s : string) : bool :=
  match s with
  | EmptyString => true
  | String c s' => is_digit c && all_digits s'
  end.

(** [s.isdigit()] on ASCII digits: false on the empty string. *)
Definition isdigit (s : string) : bool := truthy s && all_digits s.

Fixpoint int_acc (acc : nat) (s : string) : nat :=
  match s with
  | EmptyString => acc
  | String c s' => int_acc (10 * acc + (nat_of_ascii c - 48)) s'
  end.

(** [int(s)] for a string of digits. *)
Definition int (s : string) : nat := int_acc 0 s.

End Py.

(** ** Data model *)

(** Page titles, item identifiers (Q-ids) and property identifiers. *)
Abbreviation Title := string (only parsing).
Abbreviation Qid := string (only parsing).
Abbreviation Pid := string (only parsing).

(** What [claim.getTarget()] yields: an [ItemPage], or something that is not
    one (no value, unknown value). *)
Inductive Target :=
| TItem (q : Qid)
| TOther.

Definition target_eqb (a b : Target) : bool :=
  match a, b with
  | TItem x, TItem y => String.eqb x y
  | TOther, TOther => true
  | _, _ => false
  end.

(** A statement object.  [cid] is the identity of the object (its GUID in the
    knowledge base); [qualifiers] is the dict from qualifier property to the
    targets of the qualifiers of that property, in order. *)
Record Claim := mkClaim {
  cid : nat;
  cprop : Pid;
  ctarget : Target;
  qualifiers : gmap string (list Target)
}.

(** The external page store and the read-only part of the knowledge base.
    [get_param] and [get_param_from_template] stand for the result of the
    regular-expression search on the page text. *)
Record Site := mkSite {
  page_exists : Title -> bool;
  page_isRedirect : Title -> bool;
  page_redirectTarget : Title -> Title;
  item_fromPage : Title -> option Qid;
  label_cs : Qid -> option string;
  allpages : list Title;
  get_param : Title -> string -> option string;
  get_param_from_template : Title -> string -> option string
}.

(** Edit summaries, one per mutation site. *)
Inductive Summary :=
| SumEstimatedNoTitul
| SumMultiLevelGuess
| SumSimilarWork
| SumAdded
| SumCorrected
| SumDuplicateRemoved
| SumQualifier (prop : Pid).

(** Operator-visible messages, one constructor per print site. *)
Inductive Msg :=
| MHeader (t : Title)
| MNoItem
| MNoTitul
| MNoParentLevel
| MTryingEstimate (cand : Title)
| MFound (t : Title) (q : Qid)
| MNoAncestorItem
| MExpectedNotFound (base : Title)
| MTryingFull (cand : Title)
| MFoundAs (q : Qid) (lbl : option string)
| MAlreadyCorrect (q : Qid)
| MFullHasNoItem (cand : Title)
| MCandidatesHeader
| MCandidateLine (i : nat) (t : Title)
| MChosenHasNoItem
| MNoSimilar
| MMissing (q : Qid) (lbl : option string)
| MMatches (q : Qid)
| MMismatch
| MCurrent (q : Qid) (lbl : option string)
| MExpected (q : Qid) (lbl : option string)
| MNoNavigation
| MNoP1433
| MDifferentValues
| MValueLine (q : Qid) (lbl : option string)
| MSameTargetDuplicates (q : Qid)
| MRemovalCandidate
| MDuplicatesRemoved
| MAlreadyQualified
| MPublishedIn (q : Qid)
| MBaseTitle (t : Title)
| MAddingQualifier (prop : Pid) (q : Qid) (lbl : option string)
| MNoPrevItem (t : Title)
| MNoNextItem (t : Title).

(** Questions put to the operator through [input()]. *)
Inductive Prompt :=
| PConfirmAddEstimated (q : Qid) (t : Title)
| PConfirmUseFull (cand : Title)
| PConfirmUseInstead (t : Title) (q : Qid) (base : Title)
| PConfirmAdd
| PConfirmReplace
| PChooseNumber
| POpenBrowser
| PRemoveDuplicates.

(** Read-only calls to the external stores. *)
Inductive Query :=
| QExists (t : Title)
| QIsRedirect (t : Title)
| QRedirectTarget (t : Title)
| QItemFromPage (t : Title)
| QClaims (q : Qid)
| QAllPages.

(** Everything the program does to the outside world, in order. *)
Inductive Event :=
| EOut (m : Msg)
| EAsk (p : Prompt)
| EQuery (q : Query)
| EAddClaim (item : Qid) (prop : Pid) (t : Qid) (s : Summary)
| EChangeTarget (item : Qid) (c : nat) (t : Qid) (s : Summary)
| ERemoveClaim (item : Qid) (c : nat) (s : Summary)
| EAddQualifier (item : Qid) (c : nat) (prop : Pid) (t : Qid) (s : Summary)
| EOpenBrowser (item : Qid).

Definition is_mutation (e : Event) : bool :=
  match e with
  | EAddClaim _ _ _ _ | EChangeTarget _ _ _ _
  | ERemoveClaim _ _ _ | EAddQualifier _ _ _ _ _ => true
  | _ => false
  end.

Definition is_confirmation (e : Event) : bool :=
  match e with
  | EAsk (PConfirmAddEstimated _ _) | EAsk (PConfirmUseFull _)
  | EAsk (PConfirmUseInstead _ _ _) | EAsk PConfirmAdd
  | EAsk PConfirmReplace | EAsk PRemoveDuplicates => true
  | _ => false
  end.

(** The mutations, the messages and the item lookups of a trace. *)
Definition mutations (tr : list Event) : list Event := List.filter is_mutation tr.

Definition confirmations (tr : list Event) : list Event :=
  List.filter is_confirmation tr.

Fixpoint outputs (tr : list Event) : list Msg :=
  match tr with
  | [] => []
  | EOut m :: tr' => m :: outputs tr'
  | _ :: tr' => outputs tr'
  end.

Fixpoint item_lookups (tr : list Event) : list Title :=
  match tr with
  | [] => []
  | EQuery (QItemFromPage t) :: tr' => t :: item_lookups tr'
  | _ :: tr' => item_lookups tr'
  end.

(** ** The mutable world and the monad of the scripts *)

(** Python exceptions that escape the modelled code. *)
Inductive Exn :=
| UnboundLocalError
| IndexError
| AttributeError
| EOFError
| APIError.

Inductive Result (A : Type) :=
| Ok (a : A)
| Raise (e : Exn).
Arguments Ok {A} a.
Arguments Raise {A} e.

(** The mutable part of the world: the claims of every item ([item.claims],
    a dict from property to list of claims), the lines still to be read from
    the terminal, the next free claim identity, and the module-level
    [always_yes] of [harvest_pap1.py]. *)
Record Store := mkStore {
  kb : gmap string (gmap string (list Claim));
  stdin : list string;
  fresh : nat;
  always_yes : bool
}.

Record Outcome (A : Type) := mkOutcome {
  res : Result A;
  st : Store;
  evs : list Event
}.
Arguments mkOutcome {A} res st evs.
Arguments res {A} o.
Arguments st {A} o.
Arguments evs {A} o.

Definition M (A : Type) : Type := Store -> Outcome A.

Definition ret {A} (a : A) : M A := fun s => mkOutcome (Ok a) s [].

Definition bind {A B} (m : M A) (f : A -> M B) : M B :=
  fun s =>
    let o := m s in
    match res o with
    | Ok a => let o' := f a (st o) in mkOutcome (res o') (st o') (evs o ++ evs o')%list
    | Raise e => mkOutcome (Raise e) (st o) (evs o)
    end.

Definition raise {A} (e : Exn) : M A := fun s => mkOutcome (Raise e) s [].

Definition emit (e : Event) : M unit := fun s => mkOutcome (Ok tt) s [e].

Notation "'do' x <- c1 ; c2" := (bind c1 (fun x => c2))
  (at level 10, x name, c1 at level 100, c2 at level 200).
Notation "'run' c1 ; c2" := (bind c1 (fun _ => c2))
  (at level 10, c1 at level 100, c2 at level 200).

Definition output (m : Msg) : M unit := emit (EOut m).

(** [input(prompt)]: the next terminal line; [EOFError] when there is none. *)
Definition input (p : Prompt) : M string :=
  fun s =>
    match stdin s with
    | [] => mkOutcome (Raise EOFError) s [EAsk p]
    | a :: rest =>
        mkOutcome (Ok a) (mkStore (kb s) rest (fresh s) (always_yes s)) [EAsk p]
    end.

Definition set_always_yes (b : bool) : M unit :=
  fun s => mkOutcome (Ok tt) (mkStore (kb s) (stdin s) (fresh s) b) [].

(** *** Knowledge-base primitives (pywikibot) *)

Definition item_claims_of (s : Store) (q : Qid) : gmap string (list Claim) :=
  default ∅ (kb s !! q).

Definition claims_of (s : Store) (q : Qid) (p : Pid) : list Claim :=
  default [] (item_claims_of s q !! p).

(** A property with no statement left has no key in [item.claims]. *)
Definition set_claims (it : gmap string (list Claim)) (p : Pid) (l : list Claim)
  : gmap string (list Claim) :=
  match l with
  | [] => delete p it
  | _ => <[p := l]> it
  end.

Definition put_claims (s : Store) (q : Qid) (p : Pid) (l : list Claim) : Store :=
  mkStore (<[q := set_claims (item_claims_of s q) p l]> (kb s))
          (stdin s) (fresh s) (always_yes s).

Definition has_cid (k : nat) (l : list Claim) : bool :=
  existsb (fun c => Nat.eqb (cid c) k) l.

(** [item.claims]: the claims of the item as loaded from the knowledge base. *)
Definition load_claims (q : Qid) : M (gmap string (list Claim)) :=
  fun s => mkOutcome (Ok (item_claims_of s q)) s [EQuery (QClaims q)].

(** [item.addClaim(claim, summary=...)] for a new claim with an item target:
    the statement is appended to the item's statements of that property. *)
Definition addClaim (q : Qid) (p : Pid) (t : Qid) (sm : Summary) : M unit :=
  fun s =>
    let c := mkClaim (fresh s) p (TItem t) ∅ in
    let s' := put_claims s q p (claims_of s q p ++ [c])%list in
    mkOutcome (Ok tt) (mkStore (kb s') (stdin s') (S (fresh s')) (always_yes s'))
              [EAddClaim q p t sm].

(** [claim.changeTarget(t, summary=...)] on a claim of item [q]. *)
Definition changeTarget (q : Qid) (c : Claim) (t : Qid) (sm : Summary) : M unit :=
  fun s =>
    let l := claims_of s q (cprop c) in
    if has_cid (cid c) l then
      let l' := List.map (fun d => if Nat.eqb (cid d) (cid c)
                                   then mkClaim (cid d) (cprop d) (TItem t) (qualifiers d)
                                   else d) l in
      mkOutcome (Ok tt) (put_claims s q (cprop c) l') [EChangeTarget q (cid c) t sm]
    else mkOutcome (Raise APIError) s [].

(** [item.removeClaims([c], summary=...)]: the statement leaves the knowledge
    base; the list the caller already holds is a local object and keeps it. *)
Definition removeClaims (q : Qid) (c : Claim) (sm : Summary) : M unit :=
  fun s =>
    let l := claims_of s q (cprop c) in
    if has_cid (cid c) l then
      let l' := List.filter (fun d => negb (Nat.eqb (cid d) (cid c))) l in
      mkOutcome (Ok tt) (put_claims s q (cprop c) l') [ERemoveClaim q (cid c) sm]
    else mkOutcome (Raise APIError) s [].

Definition add_qual (p : Pid) (t : Qid) (c : Claim) : Claim :=
  mkClaim (cid c) (cprop c) (ctarget c)
          (<[p := (default [] (qualifiers c !! p) ++ [TItem t])%list]> (qualifiers c)).

(** [claim.addQualifier(qual, summary=...)]: the knowledge base rejects a
    statement it no longer has; on success the local claim object is updated
    too, and is returned here. *)
Definition addQualifier (q : Qid) (c : Claim) (p : Pid) (t : Qid) (sm : Summary)
  : M Claim :=
  fun s =>
    let l := claims_of s q (cprop c) in
    if has_cid (cid c) l then
      let l' := List.map (fun d => if Nat.eqb (cid d) (cid c) then add_qual p t d else d) l in
      mkOutcome (Ok (add_qual p t c)) (put_claims s q (cprop c) l')
                [EAddQualifier q (cid c) p t sm]
    else mkOutcome (Raise APIError) s [].

(** *** Page-store and item lookups, recorded in the trace *)

(** [pywikibot.Page(site, t).exists()]. *)
Definition q_exists (site : Site) (t : Title) : M bool :=
  run emit (EQuery (QExists t)); ret (page_exists site t).

(** [page.isRedirectPage()]. *)
Definition q_isRedirect (site : Site) (t : Title) : M bool :=
  run emit (EQuery (QIsRedirect t)); ret (page_isRedirect site t).

(** [page.getRedirectTarget().title()]. *)
Definition q_redirectTarget (site : Site) (t : Title) : M Title :=
  run emit (EQuery (QRedirectTarget t)); ret (page_redirectTarget site t).

(** [pywikibot.ItemPage.fromPage(page)] under [try ... except Exception]:
    [None] stands for the exception. *)
Definition q_fromPage (site : Site) (t : Title) : M (option Qid) :=
  run emit (EQuery (QItemFromPage t)); ret (item_fromPage site t).

(** [ans in {"y", "a"}]. *)
Definition yes_or_all (ans : string) : bool :=
  String.eqb ans "y" || String.eqb ans "a".

(** ** check_P1433.py *)

Module CheckP1433.
Section WithSite.

Variable site : Site.

(** The [TITUL] parameter is looked up by [get_param(page, "TITUL")]. *)
Definition TITUL : string := "TITUL".

(** The body of the [for candidate in reversed(candidates)] loop of
    [guess_base_title].  [inl t] is an early [return t]; [inr b] is the
    value of [best_existing] when the loop runs out. *)
Fixpoint guess_loop (cands : list Title) (best_existing : option Title)
  : M (Title + option Title) :=
  match cands with
  | [] => ret (inr best_existing)
  | candidate :: rest =>
      do e <- q_exists site candidate;
      if negb e then guess_loop rest best_existing
      else
        do r <- q_isRedirect site candidate;
        do candidate_page <-
          (if r then q_redirectTarget site candidate else ret candidate);
        do it <- q_fromPage site candidate_page;
        match it with
        | Some _ => ret (inl candidate_page)
        | None => guess_loop rest (Some candidate_page)
        end
  end.

(** [range(1, len(parts))] mapped to the joined prefixes. *)
Definition candidates_top_down (parts : list string) : list Title :=
  List.map (fun i => Py.join_slash (take i parts)) (seq 1 (length parts - 1)).

Definition guess_base_title (page : Title) (title_param : option string)
  : M Title :=
  let title := page in
  let parts := Py.split_slash title in
  if Nat.eqb (length parts) 1 then ret (hd EmptyString parts)
  else
    let candidates := candidates_top_down parts in
    do r <- guess_loop (rev candidates) None;
    match r with
    | inl t => ret t
    | inr best_existing =>
        ret (if Py.truthy_opt best_existing
             then default EmptyString best_existing
             else hd EmptyString parts)
    end.

Definition get_item_for_page (title : Title) : M (option Qid) :=
  q_fromPage site title.

(** [get_publication_item(item)], on the loaded [item.claims]. *)
Definition get_publication_item (claims : gmap string (list Claim))
  : M (option Qid) :=
  match claims !! "P1433" with
  | Some l =>
      match l with
      | claim :: _ =>
          match ctarget claim with
          | TItem tgt => ret (Some tgt)
          | TOther => ret None
          end
      | [] => raise IndexError
      end
  | None => ret None
  end.

(** The [while True] loop of [confirm]: it ends at the first line that is
    one of y, n, a after [strip().lower()], or with [EOFError]. *)
Fixpoint confirm_loop (q : Prompt) (inp : list string)
  : Result string * list string * list Event :=
  match inp with
  | [] => (Raise EOFError, [], [EAsk q])
  | a :: rest =>
      let ans := Py.lower (Py.strip a) in
      if String.eqb ans "y" || String.eqb ans "n" || String.eqb ans "a"
      then (Ok ans, rest, [EAsk q])
      else
        let '(r, rest', ev) := confirm_loop q rest in
        (r, rest', EAsk q :: ev)
  end.

Definition confirm (q : Prompt) : M string :=
  fun s =>
    let '(r, rest, ev) := confirm_loop q (stdin s) in
    mkOutcome r (mkStore (kb s) rest (fresh s) (always_yes s)) ev.

(** [ans = "y" if all_yes else confirm(question)]. *)
Definition answer (all_yes : bool) (q : Prompt) : M string :=
  if all_yes then ret "y" else confirm q.

(** [if ans == "a": all_yes = True]. *)
Definition updated_all_yes (ans : string) (all_yes : bool) : bool :=
  if String.eqb ans "a" then true else all_yes.

(** The [for cand in candidates] loop of the branch without [TITUL],
    together with the two statements that follow it. *)
Fixpoint estimate_loop (item : Qid) (all_yes : bool) (cands : list Title)
  : M bool :=
  match cands with
  | [] => run output MNoAncestorItem; ret all_yes
  | cand :: rest =>
      run output (MTryingEstimate cand);
      do e <- q_exists site cand;
      if negb e then estimate_loop item all_yes rest
      else
        do r <- q_isRedirect site cand;
        do cand_page <- (if r then q_redirectTarget site cand else ret cand);
        do cand_item <- get_item_for_page cand_page;
        match cand_item with
        | Some ci =>
            run output (MFound cand_page ci);
            do ans <- answer all_yes (PConfirmAddEstimated ci cand_page);
            if yes_or_all ans then
              run addClaim item "P1433" ci SumEstimatedNoTitul;
              ret (updated_all_yes ans all_yes)
            else ret all_yes
        | None => estimate_loop item all_yes rest
        end
  end.

(** [range(len(parts) - 1, 0, -1)] mapped to the joined prefixes. *)
Definition candidates_bottom_up (parts : list string) : list Title :=
  List.map (fun i => Py.join_slash (take i parts))
           (rev (seq 1 (length parts - 1))).

(** The scan of [site.allpages(namespace=0)] for similar titles. *)
Fixpoint scan_similar (search_title : string) (pages : list Title)
         (alt_candidates : list Title) : list Title :=
  match pages with
  | [] => alt_candidates
  | p :: rest =>
      let alt :=
        if Py.contains search_title (Py.lower p) && negb (Py.contains "/" p)
        then (alt_candidates ++ [p])%list else alt_candidates in
      if Nat.leb 5 (length alt) then alt else scan_similar search_title rest alt
  end.

Fixpoint print_candidates (i : nat) (l : list Title) : M unit :=
  match l with
  | [] => ret tt
  | cand :: rest => run output (MCandidateLine i cand); print_candidates (S i) rest
  end.

(** The multi-level guess (source lines 152-178).  [Some b] means that
    [process_page] returned [b] there; [None] means that control falls
    through to the search for similar titles. *)
Definition multi_level_guess (page : Title) (item : Qid) (all_yes : bool)
           (base_title : Title) : M (option bool) :=
  let parts := Py.split_slash page in
  if Nat.ltb 2 (length parts) then
    let prefix := Py.join_slash (take (length parts - 1) parts) in
    if negb (Py.startswith base_title prefix) then
      let candidate_full := prefix ++ "/" ++ base_title in
      run output (MTryingFull candidate_full);
      do candidate_item <- get_item_for_page candidate_full;
      match candidate_item with
      | Some ci =>
          run output (MFoundAs ci (label_cs site ci));
          do claims <- load_claims item;
          do current_item <- get_publication_item claims;
          match current_item with
          | Some _ =>
              (* [current_item.id == cand_item.id]: the local [cand_item]
                 has no value on this path *)
              raise UnboundLocalError
          | None =>
              do ans <- answer all_yes (PConfirmUseFull candidate_full);
              if yes_or_all ans then
                run addClaim item "P1433" ci SumMultiLevelGuess;
                ret (Some (updated_all_yes ans all_yes))
              else ret (Some all_yes)
          end
      | None => run output (MFullHasNoItem candidate_full); ret None
      end
    else ret None
  else ret None.

(** The fallback that offers similar titles (source lines 180-210). *)
Definition similar_titles (item : Qid) (all_yes : bool) (base_title : Title)
  : M bool :=
  let search_title := Py.lower base_title in
  run emit (EQuery QAllPages);
  let alt_candidates := scan_similar search_title (allpages site) [] in
  match alt_candidates with
  | [] => run output MNoSimilar; ret all_yes
  | _ =>
      run output MCandidatesHeader;
      run print_candidates 1 alt_candidates;
      do line <- input PChooseNumber;
      let choice := Py.strip line in
      if Py.isdigit choice && Nat.leb 1 (Py.int choice)
         && Nat.leb (Py.int choice) (length alt_candidates)
      then
        let chosen_page := default EmptyString (alt_candidates !! (Py.int choice - 1)) in
        do expected_item <- get_item_for_page chosen_page;
        match expected_item with
        | Some ei =>
            do ans <- answer all_yes (PConfirmUseInstead chosen_page ei base_title);
            if yes_or_all ans then
              run addClaim item "P1433" ei SumSimilarWork;
              ret (updated_all_yes ans all_yes)
            else ret all_yes
        | None => run output MChosenHasNoItem; ret all_yes
        end
      else ret all_yes
  end.

(** The comparison with the existing claim (source lines 212-242). *)
Definition reconcile (item : Qid) (all_yes : bool) (expected_item : Qid)
  : M bool :=
  do claims <- load_claims item;
  do current_item <- get_publication_item claims;
  match current_item with
  | None =>
      run output (MMissing expected_item (label_cs site expected_item));
      do ans <- answer all_yes PConfirmAdd;
      if yes_or_all ans then
        run addClaim item "P1433" expected_item SumAdded;
        ret (updated_all_yes ans all_yes)
      else ret all_yes
  | Some cur =>
      if String.eqb cur expected_item then
        run output (MMatches cur); ret all_yes
      else
        run output MMismatch;
        run output (MCurrent cur (label_cs site cur));
        run output (MExpected expected_item (label_cs site expected_item));
        do ans <- answer all_yes PConfirmReplace;
        if yes_or_all ans then
          match default [] (claims !! "P1433") with
          | claim :: _ =>
              run changeTarget item claim expected_item SumCorrected;
              ret (updated_all_yes ans all_yes)
          | [] => raise IndexError
          end
        else ret all_yes
  end.

Definition process_page (page : Title) (all_yes : bool) : M bool :=
  run output (MHeader page);
  do it <- q_fromPage site page;
  match it with
  | None => run output MNoItem; ret all_yes
  | Some item =>
      let title_param := get_param site page TITUL in
      if negb (Py.truthy_opt title_param) then
        run output MNoTitul;
        let parts := Py.split_slash page in
        if Nat.leb (length parts) 1 then
          run output MNoParentLevel; ret all_yes
        else estimate_loop item all_yes (candidates_bottom_up parts)
      else
        do base_title <- guess_base_title page title_param;
        do expected_item <- get_item_for_page base_title;
        match expected_item with
        | None =>
            run output (MExpectedNotFound base_title);
            do returned <- multi_level_guess page item all_yes base_title;
            match returned with
            | Some b => ret b
            | None => similar_titles item all_yes base_title
            end
        | Some ei => reconcile item all_yes ei
        end
  end.

Fixpoint main_loop (gen : list Title) (all_yes : bool) : M unit :=
  match gen with
  | [] => ret tt
  | page :: rest =>
      do e <- q_exists site page;
      if negb e then main_loop rest all_yes
      else
        do r <- q_isRedirect site page;
        if r then main_loop rest all_yes
        else
          do all_yes' <- process_page page all_yes;
          main_loop rest all_yes'
  end.

(** [gen] is [None] when no page generator was given on the command line. *)
Definition main (gen : option (list Title)) : M unit :=
  match gen with
  | None => ret tt
  | Some pages => main_loop pages false
  end.

End WithSite.
End CheckP1433.

(** ** harvest_pap1.py *)

Module HarvestPap1.
Section WithSite.

Variable site : Site.

Definition PREV : string := "PŘEDCHOZÍ".
Definition NEXT : string := "DALŠÍ".

Definition get_item_for_page (title : Title) : M (option Qid) :=
  q_fromPage site title.

(** [item.claims.get("P1433", [])]. *)
Definition get_p1433_claims (claims : gmap string (list Claim)) : list Claim :=
  default [] (claims !! "P1433").

(** [has_qualifiers(claim)] with the default [("P155", "P156")]. *)
Definition has_qualifiers (claim : Claim) : bool :=
  existsb (fun q => match qualifiers claim !! q with
                    | Some (_ :: _) => true
                    | _ => false
                    end)
          ["P155"; "P156"].

(** [add_statement_with_qualifier(repo, item, prop, target_item,
    journal_claim)].  The value is the state of the [journal_claim] object
    after the call. *)
Definition add_statement_with_qualifier (item : Qid) (prop : Pid)
           (target_item : option Qid) (journal_claim : option Claim)
  : M (option Claim) :=
  match target_item, journal_claim with
  | Some t, Some jc =>
      if existsb (fun qual => target_eqb qual (TItem t))
                 (default [] (qualifiers jc !! prop))
      then ret (Some jc)
      else
        do jc' <- addQualifier item jc prop t (SumQualifier prop);
        run output (MAddingQualifier prop t (label_cs site t));
        ret (Some jc')
  | _, _ => ret journal_claim
  end.

(** The ids of the targets that are [ItemPage]s. *)
Fixpoint item_target_ids (claims : list Claim) : list Qid :=
  match claims with
  | [] => []
  | c :: rest =>
      match ctarget c with
      | TItem q => q :: item_target_ids rest
      | TOther => item_target_ids rest
      end
  end.

(** [for c in claims: ... target.id ...]: a target that is not an item has
    no [id]. *)
Fixpoint print_values (claims : list Claim) : M unit :=
  match claims with
  | [] => ret tt
  | c :: rest =>
      match ctarget c with
      | TItem q => run output (MValueLine q (label_cs site q)); print_values rest
      | TOther => raise AttributeError
      end
  end.

Fixpoint print_removal_candidates (no_qual : list Claim) : M unit :=
  match no_qual with
  | [] => ret tt
  | _ :: rest => run output MRemovalCandidate; print_removal_candidates rest
  end.

Fixpoint remove_all (item : Qid) (no_qual : list Claim) : M unit :=
  match no_qual with
  | [] => ret tt
  | c :: rest =>
      run removeClaims item c SumDuplicateRemoved; remove_all item rest
  end.

(** [[c for c in claims if c.getTarget().id == target_qid]]. *)
Fixpoint with_target (target_qid : Qid) (claims : list Claim) : M (list Claim) :=
  match claims with
  | [] => ret []
  | c :: rest =>
      match ctarget c with
      | TItem q =>
          do l <- with_target target_qid rest;
          ret (if String.eqb q target_qid then c :: l else l)
      | TOther => raise AttributeError
      end
  end.

(** [cleanup_p1433_duplicates(repo, item, claims)]; [None] is Python's
    [None].  The set comprehension is a duplicate-free list: only its
    length, and its element when it has exactly one, are used. *)
Definition cleanup_p1433_duplicates (item : Qid) (claims : list Claim)
  : M (option Claim) :=
  let unique_targets := remove_dups (item_target_ids claims) in
  if Nat.ltb 1 (length unique_targets) then
    run output MDifferentValues;
    run print_values claims;
    do line <- input POpenBrowser;
    let ans := Py.lower line in
    run (if String.eqb ans "y" then emit (EOpenBrowser item) else ret tt);
    ret None
  else
    match unique_targets with
    | [] => raise IndexError
    | target_qid :: _ =>
        let with_qual := List.filter has_qualifiers claims in
        let no_qual := List.filter (fun c => negb (has_qualifiers c)) claims in
        run (if Nat.ltb 1 (length claims) && negb (Nat.eqb (length no_qual) 0)
             then
               run output (MSameTargetDuplicates target_qid);
               run print_removal_candidates no_qual;
               do line <- input PRemoveDuplicates;
               let ans := Py.lower line in
               if yes_or_all ans then
                 run remove_all item no_qual;
                 run output MDuplicatesRemoved;
                 if String.eqb ans "a" then set_always_yes true else ret tt
               else ret tt
             else ret tt);
        do same <- with_target target_qid claims;
        match same with
        | c :: _ => ret (Some c)
        | [] => raise IndexError
        end
    end.

(** The two blocks that attach the previous and the next part. *)
Definition attach_sibling (item : Qid) (parts : list string) (prop : Pid)
           (name : option string) (missing : Title -> Msg)
           (journal_claim : Claim) : M Claim :=
  match name with
  | Some n =>
      if Py.truthy n then
        let full := Py.join_slash (take (length parts - 1) parts ++ [Py.strip n]) in
        do sibling_item <- get_item_for_page full;
        match sibling_item with
        | Some si =>
            do jc <- add_statement_with_qualifier item prop (Some si) (Some journal_claim);
            ret (default journal_claim jc)
        | None => run output (missing full); ret journal_claim
        end
      else ret journal_claim
  | None => ret journal_claim
  end.

Definition process_page (page : Title) : M unit :=
  run output (MHeader page);
  do it <- q_fromPage site page;
  match it with
  | None => run output MNoItem; ret tt
  | Some item =>
      let prev_title := get_param_from_template site page PREV in
      let next_title := get_param_from_template site page NEXT in
      if negb (Py.truthy_opt prev_title || Py.truthy_opt next_title) then
        run output MNoNavigation; ret tt
      else
        do all_claims <- load_claims item;
        let claims := get_p1433_claims all_claims in
        match claims with
        | [] => run output MNoP1433; ret tt
        | _ =>
            do cleaned <- cleanup_p1433_duplicates item claims;
            match cleaned with
            | None => ret tt
            | Some journal_claim =>
                if has_qualifiers journal_claim then
                  run output MAlreadyQualified; ret tt
                else
                  match ctarget journal_claim with
                  | TOther => raise AttributeError
                  | TItem journal_qid =>
                      run output (MPublishedIn journal_qid);
                      let parts := Py.split_slash page in
                      let base_title :=
                        if Nat.ltb 1 (length parts)
                        then Py.join_slash (take (length parts - 1) parts)
                        else page in
                      run output (MBaseTitle base_title);
                      do jc <- attach_sibling item parts "P155" prev_title
                                              MNoPrevItem journal_claim;
                      do _jc <- attach_sibling item parts "P156" next_title
                                               MNoNextItem jc;
                      ret tt
                  end
            end
        end
  end.

Fixpoint main_loop (gen : list Title) : M unit :=
  match gen with
  | [] => ret tt
  | page :: rest =>
      do e <- q_exists site page;
      if negb e then main_loop rest
      else
        do r <- q_isRedirect site page;
        if r then main_loop rest
        else run process_page page; main_loop rest
  end.

Definition main (gen : option (list Title)) : M unit :=
  run set_always_yes false;
  match gen with
  | None => ret tt
  | Some pages => main_loop pages
  end.

End WithSite.
End HarvestPap1.

(** ** Concrete wikis and knowledge bases used as inputs *)

Module Scenario.

Definition assoc {A} (l : list (string * A)) (k : string) : option A :=
  match List.find (fun p => String.eqb (fst p) k) l with
  | Some p => Some (snd p)
  | None => None
  end.

(** A wiki given by its pages (each with the item connected to it, if
    any), its redirects, and the values of [TITUL], [PŘEDCHOZÍ] and
    [DALŠÍ] found in the navigation template of each page. *)
Definition site_of (pages : list (string * option string))
           (redirects : list (string * string))
           (titul prev next : list (string * string)) : Site :=
  mkSite (fun t => match assoc pages t with Some _ => true | None => false end)
         (fun t => match assoc redirects t with Some _ => true | None => false end)
         (fun t => default t (assoc redirects t))
         (fun t => default None (assoc pages t))
         (fun _ => None)
         (List.map fst pages)
         (fun t n => if String.eqb n CheckP1433.TITUL then assoc titul t else None)
         (fun t n => if String.eqb n HarvestPap1.PREV then assoc prev t
                     else if String.eqb n HarvestPap1.NEXT then assoc next t
                     else None).

Definition store_of (items : list (string * list Claim)) (lines : list string)
           (next_id : nat) : Store :=
  mkStore (list_to_map
             (List.map (fun p => (fst p, set_claims ∅ "P1433" (snd p))) items))
          lines next_id false.

Definition plain (k : nat) (q : string) : Claim := mkClaim k "P1433" (TItem q) ∅.

Definition qualified (k : nat) (q : string) (p : string) (t : string) : Claim :=
  mkClaim k "P1433" (TItem q) {[ p := [TItem t] ]}.

(** Page [A/B] declares [TITUL=X]; [X] and the parent [A] both have an item. *)
Definition site_declared_title : Site :=
  site_of [("A", Some "Q2"); ("A/B", Some "Q1"); ("X", Some "Q9")] []
          [("A/B", "X")] [] [].

Definition store_declared_title : Store := store_of [("Q1", [])] [] 0.

(** [A/B/C/D] without [TITUL]; [A/B/C] exists without an item, [A/B] and
    [A] have items. *)
Definition site_abcd : Site :=
  site_of [("A", Some "Q1"); ("A/B", Some "Q2"); ("A/B/C", None);
           ("A/B/C/D", Some "Q4")] [] [] [] [].

Definition store_abcd : Store := store_of [("Q4", [])] ["y"] 0.

(** [A/B] without [TITUL]; the parent [A] has item [Q1]. *)
Definition site_no_titul : Site :=
  site_of [("A", Some "Q1"); ("A/B", Some "Q2")] [] [] [] [].

Definition store_no_titul : Store := store_of [("Q2", [])] ["y"; "y"] 0.

(** [A/B/C] declares [TITUL]; only [A] exists among its ancestors and has no
    item; [A/B/A] has item [Q7], which the page's item already names. *)
Definition site_multi_level : Site :=
  site_of [("A", None); ("A/B/A", Some "Q7"); ("A/B/C", Some "Q1")] []
          [("A/B/C", "T")] [] [].

Definition store_multi_level : Store := store_of [("Q1", [plain 0 "Q7"])] [] 1.

(** One-segment page [A] that declares [TITUL]. *)
Definition site_single : Site :=
  site_of [("A", Some "Q1")] [] [("A", "T")] [] [].

Definition store_single : Store := store_of [("Q1", [])] [] 0.

(** Journal pages with a previous part whose page has no item. *)
Definition site_journal : Site :=
  site_of [("J/P7", Some "Q7"); ("J/P8", Some "Q8")] [] []
          [("J/P7", "P6"); ("J/P8", "P7x")] [].

(** Two claims with the same target, none qualified. *)
Definition store_all_plain : Store :=
  store_of [("Q7", [plain 0 "Q100"; plain 1 "Q100"])] ["y"] 2.

(** Two claims with the same target; the second one is qualified. *)
Definition store_plain_first : Store :=
  store_of [("Q7", [plain 0 "Q100"; qualified 1 "Q100" "P155" "Q6"])] ["y"] 2.

(** Two pages, each with a qualified claim followed by a plain duplicate. *)
Definition store_two_pages : Store :=
  store_of [("Q7", [qualified 0 "Q100" "P155" "Q6"; plain 1 "Q100"]);
            ("Q8", [qualified 2 "Q100" "P155" "Q7"; plain 3 "Q100"])]
           ["a"; "n"] 4.

(** A claim for an item and a claim whose value is not an item. *)
Definition store_item_and_other : Store :=
  store_of [("Q7", [plain 0 "Q5"; mkClaim 1 "P1433" TOther ∅])] ["y"] 2.

(** Two claims with distinct targets. *)
Definition store_distinct : Store :=
  store_of [("Q7", [plain 0 "Q5"; plain 1 "Q9"])] ["n"] 2.

End Scenario.

(** ** Properties named in the statements below *)

(** The page an existing ancestor stands for, after one redirect resolution. *)
Definition resolved (site : Site) (t : Title) : Title :=
  if page_isRedirect site t then page_redirectTarget site t else t.

(** An ancestor yields a target: it exists and, after redirect resolution,
    has an item. *)
Definition ancestor_item (site : Site) (t : Title) : option Qid :=
  if page_exists site t then item_fromPage site (resolved site t) else None.

(** The ancestor of [page] made of its first [k] segments. *)
Definition ancestor (page : Title) (k : nat) : Title :=
  Py.join_slash (take k (Py.split_slash page)).

(** Reading of "the resolver first attempts to resolve the declared title's
    page directly": after the lookup of the page's own item, the first item
    lookup is that of the declared title. *)
Definition resolves_declared_title_first (site : Site) (page : Title)
           (all_yes : bool) (s : Store) : Prop :=
  forall t, get_param site page CheckP1433.TITUL = Some t ->
    exists rest,
      item_lookups (evs (CheckP1433.process_page site page all_yes s))
      = page :: t :: rest.

(** Reading of "the resolver never returns the page's own title". *)
Definition never_returns_own_title (site : Site) (page : Title) (s : Store) : Prop :=
  forall tp, res (CheckP1433.guess_base_title site page tp s) <> Ok page.

(** Reading of "never proposes the page's own item as the target". *)
Definition never_proposes_own_item (site : Site) (page : Title)
           (all_yes : bool) (s : Store) : Prop :=
  forall item sm, item_fromPage site page = Some item ->
    ~ In (EAddClaim item "P1433" item sm)
         (evs (CheckP1433.process_page site page all_yes s)).

(** The line of the escalation report for one claim. *)
Definition value_line (site : Site) (c : Claim) : list Msg :=
  match ctarget c with
  | TItem q => [MValueLine q (label_cs site q)]
  | TOther => []
  end.

Definition is_item_target (c : Claim) : Prop := exists q, ctarget c = TItem q.

(** [site] with another result of [get_param]. *)
Definition with_get_param (site : Site)
           (gp : Title -> string -> option string) : Site :=
  mkSite (page_exists site) (page_isRedirect site) (page_redirectTarget site)
         (item_fromPage site) (label_cs site) (allpages site) gp
         (get_param_from_template site).

(** The existence checks of a trace, in order. *)
Fixpoint exists_queries (tr : list Event) : list Title :=
  match tr with
  | [] => []
  | EQuery (QExists t) :: tr' => t :: exists_queries tr'
  | _ :: tr' => exists_queries tr'
  end.

(** An outcome preceded by earlier events. *)
Definition after {A} (ev : list Event) (o : Outcome A) : Outcome A :=
  mkOutcome (res o) (st o) (ev ++ evs o)%list.

(** The store queries made for one ancestor candidate. *)
Definition probe_events (site : Site) (a : Title) : list Event :=
  EQuery (QExists a) ::
  (if page_exists site a
   then EQuery (QIsRedirect a) ::
        ((if page_isRedirect site a then [EQuery (QRedirectTarget a)] else [])
           ++ [EQuery (QItemFromPage (resolved site a))])%list
   else []).

(** What the walk without [TITUL] emits for a candidate it passes over. *)
Definition skip_events (site : Site) (a : Title) : list Event :=
  EOut (MTryingEstimate a) :: probe_events site a.

(** [best_existing] after the walk of [guess_base_title] has passed over
    the candidates [l]. *)
Fixpoint best_after (site : Site) (l : list Title) (best : option Title)
  : option Title :=
  match l with
  | [] => best
  | a :: rest =>
      best_after site rest
                 (if page_exists site a then Some (resolved site a) else best)
  end.

(** The statements of the walk without [TITUL] that follow the discovery of
    an ancestor [a] with item [q]: confirmation and, on y or a, the edit. *)
Definition estimated_proposal (item : Qid) (all_yes : bool) (a : Title) (q : Qid)
  : M bool :=
  do ans <- CheckP1433.answer all_yes (PConfirmAddEstimated q a);
  if yes_or_all ans then
    run addClaim item "P1433" q SumEstimatedNoTitul;
    ret (CheckP1433.updated_all_yes ans all_yes)
  else ret all_yes.

(** An outcome of [check_P1433.process_page] in apply-all mode: no
    confirmation was asked, and the flag it returns is still set. *)
Definition stays_apply_all (o : Outcome bool) : Prop :=
  confirmations (evs o) = [] /\ forall b, res o = Ok b -> b = true.


(** ** Notions used by the further properties *)



(** The store with other terminal lines left to read. *)
Definition with_stdin (s : Store) (lines : list string) : Store :=
  mkStore (kb s) lines (fresh s) (always_yes s).

(** The first segment of a title, [parts[0]]. *)
Definition first_segment (page : Title) : string :=
  hd EmptyString (Py.split_slash page).

(** Python's [t or d] on strings. *)
Definition or_else (t d : string) : string := if Py.truthy t then t else d.

(** Traces made of read-only queries only. *)
Definition is_query (e : Event) : bool :=
  match e with EQuery _ => true | _ => false end.

(** All ancestors of a page, nearest first. *)
Definition ancestors_nearest_first (page : Title) : list Title :=
  List.map (ancestor page) (rev (seq 1 (length (Py.split_slash page) - 1))).

(** Two more wikis: in the first only [A] exists among the ancestors of
    [A/B/C] and it has no item; in the second [A/B/C] has no existing
    ancestor at all. *)
Module Scenario2.

Definition site_top_only : Site :=
  Scenario.site_of [("A", None); ("A/B/C", Some "Q3")] [] [] [] [].

Definition site_orphan : Site :=
  Scenario.site_of [("A/B/C", Some "Q3")] [] [] [] [].

Definition store_q3 : Store := Scenario.store_of [("Q3", [])] [] 0.

End Scenario2.

(** The claim that [item.addClaim] creates in store [s]. *)
Definition new_claim (s : Store) (q : Qid) : Claim :=
  mkClaim (fresh s) "P1433" (TItem q) ∅.

(** A claim with another item as its target. *)
Definition retarget (q : Qid) (c : Claim) : Claim :=
  mkClaim (cid c) (cprop c) (TItem q) (qualifiers c).

(** A second visit of a page that changes nothing: for either value of the
    flag it asks nothing, edits nothing and returns the flag and the store as
    they were. *)
Definition revisit_is_noop (site : Site) (page : Title) (s : Store) : Prop :=
  forall all_yes,
    let o := CheckP1433.process_page site page all_yes s in
    res o = Ok all_yes /\ st o = s
    /\ mutations (evs o) = [] /\ confirmations (evs o) = [].

(** Page [A/B] declares [TITUL]; its parent [A] has item [Q1]. *)
Module Scenario3.

Definition site_titul : Site :=
  Scenario.site_of [("A", Some "Q1"); ("A/B", Some "Q2")] [] [("A/B", "T")] [] [].

Definition store_empty : Store := Scenario.store_of [("Q2", [])] ["y"] 0.

Definition store_match : Store :=
  Scenario.store_of [("Q2", [Scenario.plain 0 "Q1"; Scenario.plain 1 "Q9"])] [] 2.

Definition store_mismatch : Store :=
  Scenario.store_of [("Q2", [Scenario.plain 0 "Q5"; Scenario.plain 1 "Q9"])] ["a"] 2.

End Scenario3.

(** The edits [check_P1433.process_page] can make to an item: adding a
    P1433 claim, or retargeting a claim with the "corrected" summary. *)
Definition page_edit (item : Qid) (e : Event) : Prop :=
  (exists t sm, e = EAddClaim item "P1433" t sm)
  \/ (exists c t, e = EChangeTarget item c t SumCorrected).

(** At most one edit, of the kinds above; outside apply-all mode an edit
    comes with a confirmation. *)
Definition gated {A} (all_yes : bool) (item : Qid) (o : Outcome A) : Prop :=
  mutations (evs o) = []
  \/ exists e, mutations (evs o) = [e] /\ page_edit item e
               /\ (all_yes = false -> confirmations (evs o) <> []).

(** All claims of a list name the item [t]. *)
Definition same_target (t : Qid) (cs : list Claim) : Prop :=
  Forall (fun c => ctarget c = TItem t) cs.

(** The claims of a list without [P155]/[P156] qualifiers, as
    [cleanup_p1433_duplicates] selects them. *)
Definition unqualified (cs : list Claim) : list Claim :=
  List.filter (fun c => negb (HarvestPap1.has_qualifiers c)) cs.

(** The removal events of a list of claims. *)
Definition removals (item : Qid) (cs : list Claim) : list Event :=
  List.map (fun c => ERemoveClaim item (cid c) SumDuplicateRemoved) cs.

(** What is shown before the removal question. *)
Definition removal_notice (t : Qid) (cs : list Claim) : list Event :=
  EOut (MSameTargetDuplicates t)
  :: List.map (fun _ => EOut MRemovalCandidate) (unqualified cs).

(** A claim whose identity is among those of [rs]. *)
Definition cid_among (rs : list Claim) (d : Claim) : bool :=
  existsb (Nat.eqb (cid d)) (List.map cid rs).

(** The claims of an item are well formed: they are listed under their own
    property and have pairwise distinct identities. *)
Definition well_formed_claims (cs : list Claim) : Prop :=
  Forall (fun c => cprop c = "P1433") cs /\ NoDup (List.map cid cs).

(** The full title of a sibling named in the navigation template:
    ["/".join(parts[:-1] + [name.strip()])]. *)
Definition sibling_title (page : Title) (name : string) : Title :=
  let parts := Py.split_slash page in
  Py.join_slash (take (length parts - 1) parts ++ [Py.strip name]).

(** The item of the sibling named by a template parameter, if the parameter
    is present and non-empty and the sibling's page has an item. *)
Definition sibling_item (site : Site) (page : Title) (name : option string)
  : option Qid :=
  match name with
  | Some n => if Py.truthy n then item_fromPage site (sibling_title page n) else None
  | None => None
  end.

(** A claim after the attachment of an optional qualifier target. *)
Definition apply_qual (p : Pid) (o : option Qid) (c : Claim) : Claim :=
  match o with Some t => add_qual p t c | None => c end.

(** The edit that attaches an optional qualifier target. *)
Definition qualifier_edit (item : Qid) (c : Claim) (p : Pid) (o : option Qid)
  : list Event :=
  match o with
  | Some t => [EAddQualifier item (cid c) p t (SumQualifier p)]
  | None => []
  end.

(** The edits [harvest_pap1.process_page] can make: the removal of a claim
    of the item that has no [P155]/[P156] qualifier, or the attachment of
    such a qualifier to a claim that has none. *)
Definition harvest_edit (item : Qid) (cs : list Claim) (e : Event) : Prop :=
  exists c, In c cs /\ HarvestPap1.has_qualifiers c = false
            /\ (e = ERemoveClaim item (cid c) SumDuplicateRemoved
                \/ exists t,
                     e = EAddQualifier item (cid c) "P155" t (SumQualifier "P155")
                     \/ e = EAddQualifier item (cid c) "P156" t (SumQualifier "P156")).

(** The pages a run passes over: missing pages and redirects. *)
Definition passed_over (site : Site) (p : Title) : Prop :=
  page_exists site p = false \/ page_isRedirect site p = true.

(** Journal page [J/P7] with previous part [P6] and next part [P8]; the
    page of [P6] has an item, the page of [P8] has none. *)
Module Scenario4.

Definition site_parts : Site :=
  Scenario.site_of [("J/P6", Some "Q6"); ("J/P7", Some "Q7"); ("J/P8", None)] []
                   [] [("J/P7", " P6 ")] [("J/P7", "P8")].

Definition store_plain : Store :=
  Scenario.store_of [("Q7", [Scenario.plain 0 "Q100"])] [] 1.

Definition store_qualified : Store :=
  Scenario.store_of [("Q7", [Scenario.qualified 0 "Q100" "P156" "Q8"])] [] 1.

(** A wiki in which [Gone] does not exist and [Old] is a redirect. *)
Definition site_stream : Site :=
  Scenario.site_of [("Old", Some "Q1"); ("New", Some "Q2")] [("Old", "New")]
                   [] [] [].

End Scenario4.

(** The immediate parent of a page, ["/".join(parts[:-1])]. *)
Definition parent (page : Title) : Title :=
  ancestor page (length (Py.split_slash page) - 1).



(** A wiki with two top-level pages whose titles contain "alma". *)
Module Scenario5.




End Scenario5.

(** The base title that [guess_base_title] falls back to when the ancestor
    of [k] segments is the highest existing one. *)
Definition fallback_base (site : Site) (page : Title) (k : nat) : Title :=
  or_else (resolved site (ancestor page k)) (first_segment page).

(** The full title tried by the multi-level guess:
    [f"{prefix}/{base_title}"]. *)
Definition full_candidate (page : Title) (base : Title) : Title :=
  (parent page ++ "/" ++ base)%string.

(** * Properties *)

Local Open Scope list_scope.

(** ** Reasoning about the monad and about traces *)

Lemma bind_ok {A B} (m : M A) (f : A -> M B) s a s' ev :
  m s = mkOutcome (Ok a) s' ev ->
  bind m f s = after ev (f a s').
Proof. intros H. unfold bind, after. rewrite H. reflexivity. Qed.

Lemma bind_raise {A B} (m : M A) (f : A -> M B) s e s' ev :
  m s = mkOutcome (Raise e) s' ev ->
  bind m f s = mkOutcome (Raise e) s' ev.
Proof. intros H. unfold bind. rewrite H. reflexivity. Qed.

Lemma after_nil {A} (o : Outcome A) : after [] o = o.
Proof. destruct o; reflexivity. Qed.

Lemma after_after {A} ev1 ev2 (o : Outcome A) :
  after ev1 (after ev2 o) = after (ev1 ++ ev2) o.
Proof. unfold after; simpl. by rewrite app_assoc. Qed.

Lemma bind_ret {A B} (a : A) (f : A -> M B) s : bind (ret a) f s = f a s.
Proof. rewrite (bind_ok _ _ s a s []); [apply after_nil | reflexivity]. Qed.

Lemma bind_emit {B} (e : Event) (f : unit -> M B) s :
  bind (emit e) f s = after [e] (f tt s).
Proof. reflexivity. Qed.

Lemma bind_output {B} (m : Msg) (f : unit -> M B) s :
  bind (output m) f s = after [EOut m] (f tt s).
Proof. reflexivity. Qed.

Lemma bind_bind {A B C} (m : M A) (f : A -> M B) (g : B -> M C) s :
  bind (bind m f) g s = bind m (fun a => bind (f a) g) s.
Proof.
  unfold bind. destruct (m s) as [[a|e] s1 ev1]; simpl; [|done].
  destruct (f a s1) as [[b|e] s2 ev2]; simpl; [|done].
  by rewrite app_assoc.
Qed.

Lemma bind_q_exists {B} site t (f : bool -> M B) s :
  bind (q_exists site t) f s = after [EQuery (QExists t)] (f (page_exists site t) s).
Proof. unfold q_exists. rewrite bind_bind, bind_emit. by rewrite bind_ret. Qed.

Lemma bind_q_isRedirect {B} site t (f : bool -> M B) s :
  bind (q_isRedirect site t) f s
  = after [EQuery (QIsRedirect t)] (f (page_isRedirect site t) s).
Proof. unfold q_isRedirect. rewrite bind_bind, bind_emit. by rewrite bind_ret. Qed.

Lemma bind_q_redirectTarget {B} site t (f : Title -> M B) s :
  bind (q_redirectTarget site t) f s
  = after [EQuery (QRedirectTarget t)] (f (page_redirectTarget site t) s).
Proof. unfold q_redirectTarget. rewrite bind_bind, bind_emit. by rewrite bind_ret. Qed.

Lemma bind_q_fromPage {B} site t (f : option Qid -> M B) s :
  bind (q_fromPage site t) f s
  = after [EQuery (QItemFromPage t)] (f (item_fromPage site t) s).
Proof. unfold q_fromPage. rewrite bind_bind, bind_emit. by rewrite bind_ret. Qed.

Lemma bind_load_claims {B} q (f : gmap string (list Claim) -> M B) s :
  bind (load_claims q) f s = after [EQuery (QClaims q)] (f (item_claims_of s q) s).
Proof. reflexivity. Qed.

Lemma bind_raise_now {A B} (e : Exn) (f : A -> M B) s :
  bind (raise e) f s = mkOutcome (Raise e) s [].
Proof. reflexivity. Qed.

Lemma bind_cong {A B} (m m' : M A) (f f' : A -> M B) s :
  m s = m' s -> (forall a s', f a s' = f' a s') -> bind m f s = bind m' f' s.
Proof.
  intros Hm Hf. unfold bind. rewrite Hm.
  destruct (res (m' s)); [by rewrite Hf | reflexivity].
Qed.

Ltac mstep1 :=
  first [ rewrite bind_ret | rewrite bind_emit | rewrite bind_output
        | rewrite bind_q_exists | rewrite bind_q_isRedirect
        | rewrite bind_q_redirectTarget | rewrite bind_q_fromPage
        | rewrite bind_load_claims | rewrite bind_raise_now
        | rewrite after_after ].

Ltac mstep := repeat first [ mstep1 | progress simpl ].


Lemma mutations_app tr1 tr2 :
  mutations (tr1 ++ tr2) = mutations tr1 ++ mutations tr2.
Proof. apply List.filter_app. Qed.

Lemma outputs_app tr1 tr2 : outputs (tr1 ++ tr2) = outputs tr1 ++ outputs tr2.
Proof.
  induction tr1 as [|e tr1 IH]; simpl; [done|].
  destruct e; simpl; by rewrite ?IH.
Qed.

Lemma exists_queries_app tr1 tr2 :
  exists_queries (tr1 ++ tr2) = exists_queries tr1 ++ exists_queries tr2.
Proof.
  induction tr1 as [|e tr1 IH]; simpl; [done|].
  destruct e as [| |[]| | | | |]; simpl; by rewrite ?IH.
Qed.

Lemma target_eqb_refl t : target_eqb t t = true.
Proof. destruct t; simpl; [apply String.eqb_refl | done]. Qed.

(** ** Qualifier attachment *)

(** C9. Attaching a previous-part or next-part item that the claim already
    carries as a qualifier target of that role property changes nothing:
    no event is emitted, the store and the claim object stay as they are. *)
Theorem C9_existing_qualifier_is_noop
        (site : Site) (item : Qid) (prop : Pid) (t : Qid) (jc : Claim) (s : Store) :
  In (TItem t) (default [] (qualifiers jc !! prop)) ->
  HarvestPap1.add_statement_with_qualifier site item prop (Some t) (Some jc) s
  = mkOutcome (Ok (Some jc)) s [].
Proof.
  intros Hin. unfold HarvestPap1.add_statement_with_qualifier.
  assert (Hex : existsb (fun qual => target_eqb qual (TItem t))
                        (default [] (qualifiers jc !! prop)) = true).
  { apply existsb_exists. exists (TItem t). split; [exact Hin|].
    apply target_eqb_refl. }
  rewrite Hex. reflexivity.
Qed.

Lemma C9_witness :
  let jc := Scenario.qualified 1 "Q100" "P155" "Q6" in
  HarvestPap1.add_statement_with_qualifier
    Scenario.site_journal "Q7" "P155" (Some "Q6") (Some jc) Scenario.store_plain_first
  = mkOutcome (Ok (Some jc)) Scenario.store_plain_first [].
Proof.
  intros jc. apply C9_existing_qualifier_is_noop.
  vm_compute. left. reflexivity.
Defined.

(** ** Pages without hierarchy *)

Lemma split_slash_nonempty s : Py.split_slash s <> [].
Proof.
  destruct s as [|c s]; simpl; [done|].
  destruct (Ascii.eqb c "/"); [done|].
  destruct (Py.split_slash s); done.
Qed.

Lemma split_slash_single s : length (Py.split_slash s) = 1 -> Py.split_slash s = [s].
Proof.
  induction s as [|c s IH]; simpl; [done|].
  destruct (Ascii.eqb c "/").
  - pose proof (split_slash_nonempty s) as Hne.
    destruct (Py.split_slash s); [done | simpl; lia].
  - destruct (Py.split_slash s) as [|p ps] eqn:E.
    + by destruct (split_slash_nonempty s).
    + simpl. intros Hlen. destruct ps; [|simpl in Hlen; lia].
      specialize (IH eq_refl). by inversion IH.
Qed.

(** C10 (amended). For a page whose path has exactly one segment:
    [guess_base_title] returns the page's own title, without consulting any
    store; and when the navigation template has no [TITUL], [process_page]
    reports "no parent level" and returns without any prompt or mutation. *)
Theorem C10_single_segment
        (site : Site) (page : Title) (all_yes : bool) (s : Store) (item : Qid) :
  length (Py.split_slash page) = 1 ->
  (forall tp, CheckP1433.guess_base_title site page tp s = mkOutcome (Ok page) s [])
  /\ (item_fromPage site page = Some item ->
      Py.truthy_opt (get_param site page CheckP1433.TITUL) = false ->
      CheckP1433.process_page site page all_yes s
      = mkOutcome (Ok all_yes) s
                  [EOut (MHeader page); EQuery (QItemFromPage page);
                   EOut MNoTitul; EOut MNoParentLevel]).
Proof.
  intros Hlen. pose proof (split_slash_single page Hlen) as Hsplit. split.
  - intros tp. unfold CheckP1433.guess_base_title. rewrite Hsplit. reflexivity.
  - intros Hitem Hno. unfold CheckP1433.process_page.
    unfold bind, output, emit, q_fromPage, ret; simpl.
    rewrite Hitem, Hno, Hsplit. reflexivity.
Qed.

Lemma C10_witness :
  (forall tp, CheckP1433.guess_base_title Scenario.site_no_titul "A" tp
                Scenario.store_no_titul
              = mkOutcome (Ok "A") Scenario.store_no_titul [])
  /\ CheckP1433.process_page Scenario.site_no_titul "A" false Scenario.store_no_titul
     = mkOutcome (Ok false) Scenario.store_no_titul
                 [EOut (MHeader "A"); EQuery (QItemFromPage "A");
                  EOut MNoTitul; EOut MNoParentLevel].
Proof.
  destruct (C10_single_segment Scenario.site_no_titul "A" false
                               Scenario.store_no_titul "Q1" eq_refl) as [H1 H2].
  split; [exact H1 | apply H2; reflexivity].
Defined.

(** C10, as stated, fails: the one-segment page [A] declares [TITUL]; the
    resolver returns the title [A] itself, and in apply-all mode the page's
    own item [Q1] is added as its "published in" target. *)
Lemma C10_counterexample :
  length (Py.split_slash "A") = 1
  /\ ~ never_returns_own_title Scenario.site_single "A" Scenario.store_single
  /\ ~ never_proposes_own_item Scenario.site_single "A" true Scenario.store_single.
Proof.
  split; [reflexivity|]. split.
  - intros H. apply (H None). reflexivity.
  - intros H. apply (H "Q1" SumAdded); [reflexivity|].
    vm_compute. do 5 right. left. reflexivity.
Qed.

(** ** Escalation of distinct targets *)

Lemma two_distinct_after_remove_dups (l : list string) (a b : string) :
  In a l -> In b l -> a <> b -> 1 < length (remove_dups l).
Proof.
  intros Ha Hb Hab.
  apply list_elem_of_In, elem_of_remove_dups in Ha.
  apply list_elem_of_In, elem_of_remove_dups in Hb.
  pose proof (NoDup_remove_dups l) as Hnd.
  destruct (remove_dups l) as [|x [|y r]]; simpl.
  - by apply elem_of_nil in Ha.
  - apply list_elem_of_singleton in Ha, Hb. congruence.
  - lia.
Qed.

Lemma item_target_ids_In (cs : list Claim) (c : Claim) (q : Qid) :
  In c cs -> ctarget c = TItem q -> In q (HarvestPap1.item_target_ids cs).
Proof.
  induction cs as [|d cs IH]; simpl; [done|].
  intros [->|Hin] Hq.
  - rewrite Hq. by left.
  - destruct (ctarget d); [right|]; by apply IH.
Qed.

Lemma print_values_items (site : Site) (cs : list Claim) (s : Store) :
  Forall is_item_target cs ->
  HarvestPap1.print_values site cs s
  = mkOutcome (Ok tt) s (List.map EOut (flat_map (value_line site) cs)).
Proof.
  induction 1 as [|c cs [q Hq] _ IH]; simpl; [done|].
  unfold value_line at 1. rewrite Hq. simpl.
  unfold bind, output, emit; simpl. rewrite IH. reflexivity.
Qed.

Lemma outputs_map_EOut (l : list Msg) : outputs (List.map EOut l) = l.
Proof. induction l; simpl; congruence. Qed.

Lemma mutations_map_EOut (l : list Msg) : mutations (List.map EOut l) = [].
Proof. induction l; simpl; congruence. Qed.

(** The outcome of the escalation branch of [cleanup_p1433_duplicates]. *)
Lemma cleanup_distinct (site : Site) (item : Qid) (cs : list Claim) (s : Store) :
  Forall is_item_target cs ->
  Nat.ltb 1 (length (remove_dups (HarvestPap1.item_target_ids cs))) = true ->
  HarvestPap1.cleanup_p1433_duplicates site item cs s
  = after (EOut MDifferentValues :: List.map EOut (flat_map (value_line site) cs))
          match stdin s with
          | [] => mkOutcome (Raise EOFError) s [EAsk POpenBrowser]
          | line :: rest =>
              mkOutcome (Ok None) (mkStore (kb s) rest (fresh s) (always_yes s))
                        (EAsk POpenBrowser ::
                         if String.eqb (Py.lower line) "y"
                         then [EOpenBrowser item] else [])
          end.
Proof.
  intros Hall Hlen. unfold HarvestPap1.cleanup_p1433_duplicates.
  rewrite Hlen. mstep.
  rewrite (bind_ok _ _ _ _ _ _ (print_values_items site cs s Hall)). mstep.
  f_equal. unfold bind at 1, input.
  destruct (stdin s) as [|line rest]; simpl; [done|].
  destruct (String.eqb (Py.lower line) "y"); mstep; reflexivity.
Qed.

(** C5. When the P1433 claims of the page's item name two distinct items,
    [process_page] of the harvester mutates nothing: the knowledge base is
    left as it was, and the operator sees exactly one report, the heading
    followed by one line per claim, so both targets are listed.  Once the
    operator has answered the offer to open the item in the browser the page
    is finished; the browser is opened exactly on the answer y. *)
Theorem C5_distinct_targets_escalate
        (site : Site) (page : Title) (item : Qid) (s : Store)
        (c1 c2 : Claim) (q1 q2 : Qid) :
  let cs := HarvestPap1.get_p1433_claims (item_claims_of s item) in
  let o := HarvestPap1.process_page site page s in
  item_fromPage site page = Some item ->
  Py.truthy_opt (get_param_from_template site page HarvestPap1.PREV)
  || Py.truthy_opt (get_param_from_template site page HarvestPap1.NEXT) = true ->
  Forall is_item_target cs ->
  In c1 cs -> In c2 cs ->
  ctarget c1 = TItem q1 -> ctarget c2 = TItem q2 -> q1 <> q2 ->
  mutations (evs o) = []
  /\ kb (st o) = kb s
  /\ outputs (evs o)
     = MHeader page :: MDifferentValues :: flat_map (value_line site) cs
  /\ In (MValueLine q1 (label_cs site q1)) (outputs (evs o))
  /\ In (MValueLine q2 (label_cs site q2)) (outputs (evs o))
  /\ (forall line rest, stdin s = line :: rest ->
        res o = Ok tt
        /\ (In (EOpenBrowser item) (evs o) <-> Py.lower line = "y")).
Proof.
  intros cs o.
  assert (Ecs : HarvestPap1.get_p1433_claims (item_claims_of s item) = cs)
    by reflexivity.
  clearbody cs. intros Hitem Hnav Hall Hin1 Hin2 Hq1 Hq2 Hne.
  assert (Hlines : forall c q, In c cs -> ctarget c = TItem q ->
            In (MValueLine q (label_cs site q)) (flat_map (value_line site) cs)).
  { intros c q Hin Hq. apply in_flat_map. exists c. split; [done|].
    unfold value_line. rewrite Hq. by left. }
  assert (Hlen : Nat.ltb 1 (length (remove_dups (HarvestPap1.item_target_ids cs))) = true).
  { apply Nat.ltb_lt.
    apply (two_distinct_after_remove_dups _ q1 q2);
      eauto using item_target_ids_In. }
  assert (Ho : exists tail : Outcome unit,
             o = after ([EOut (MHeader page); EQuery (QItemFromPage page);
                         EQuery (QClaims item); EOut MDifferentValues]
                          ++ List.map EOut (flat_map (value_line site) cs)) tail
             /\ tail = match stdin s with
                       | [] => mkOutcome (Raise EOFError) s [EAsk POpenBrowser]
                       | line :: rest =>
                           mkOutcome (Ok tt)
                                     (mkStore (kb s) rest (fresh s) (always_yes s))
                                     (EAsk POpenBrowser ::
                                      if String.eqb (Py.lower line) "y"
                                      then [EOpenBrowser item] else [])
                       end).
  { eexists. split; [|reflexivity].
    subst o. unfold HarvestPap1.process_page. mstep.
    rewrite Hitem, Hnav. mstep. rewrite Ecs.
    destruct cs as [|c0 cs0]; [done|].
    unfold bind at 1. rewrite (cleanup_distinct site item _ s Hall Hlen).
    destruct (stdin s) as [|line rest]; simpl; [reflexivity|].
    unfold after; simpl. by rewrite app_nil_r. }
  destruct Ho as (tail & -> & Htail).
  unfold after; simpl.
  rewrite !mutations_app, mutations_map_EOut, outputs_app, outputs_map_EOut.
  assert (Hm : mutations (evs tail) = [] /\ outputs (evs tail) = []
               /\ kb (st tail) = kb s).
  { subst tail. destruct (stdin s) as [|line rest]; simpl; [done|].
    by destruct (String.eqb (Py.lower line) "y"). }
  destruct Hm as (Hm1 & Hm2 & Hm3). rewrite Hm1, Hm2, !app_nil_r.
  split; [done|]. split; [done|]. split; [done|].
  split; [right; right; eauto|]. split; [right; right; eauto|].
  intros line rest Hstdin. rewrite Hstdin in Htail. subst tail. simpl.
  split; [done|]. split.
  - intros Hin.
    do 4 (destruct Hin as [Hin|Hin]; [discriminate|]).
    apply in_app_or in Hin. destruct Hin as [Hin|Hin].
    + apply in_map_iff in Hin. destruct Hin as (? & ? & _). discriminate.
    + destruct Hin as [Hin|Hin]; [discriminate|].
      destruct (String.eqb (Py.lower line) "y") eqn:Ey; [|destruct Hin].
      by apply String.eqb_eq.
  - intros Hy. do 4 right. apply in_or_app. right. right.
    apply String.eqb_eq in Hy. rewrite Hy. by left.
Qed.

Lemma C5_witness :
  let s := Scenario.store_distinct in
  let o := HarvestPap1.process_page Scenario.site_journal "J/P7" s in
  mutations (evs o) = []
  /\ kb (st o) = kb s
  /\ outputs (evs o)
     = [MHeader "J/P7"; MDifferentValues; MValueLine "Q5" None; MValueLine "Q9" None]
  /\ res o = Ok tt.
Proof.
  intros s o.
  assert (Hall : Forall is_item_target
                   (HarvestPap1.get_p1433_claims (item_claims_of s "Q7"))).
  { vm_compute. repeat constructor; eexists; reflexivity. }
  assert (Hin1 : In (Scenario.plain 0 "Q5")
                    (HarvestPap1.get_p1433_claims (item_claims_of s "Q7"))).
  { vm_compute. left. reflexivity. }
  assert (Hin2 : In (Scenario.plain 1 "Q9")
                    (HarvestPap1.get_p1433_claims (item_claims_of s "Q7"))).
  { vm_compute. right. left. reflexivity. }
  assert (Hne : "Q5" <> "Q9") by discriminate.
  pose proof (C5_distinct_targets_escalate
                Scenario.site_journal "J/P7" "Q7" s
                (Scenario.plain 0 "Q5") (Scenario.plain 1 "Q9") "Q5" "Q9"
                eq_refl eq_refl Hall Hin1 Hin2 eq_refl eq_refl Hne)
    as (Hm & Hkb & Hout & _ & _ & Hres).
  split; [exact Hm|]. split; [exact Hkb|]. split; [exact Hout|].
  apply (Hres "n" []). reflexivity.
Defined.

(** A target that is not an item is not counted among the distinct targets:
    with one claim for [Q5] and one claim without an item value the
    deduplication branch is taken, and after the confirmed removal the
    final selection fails on the value that has no [id]. *)
Lemma non_item_target_is_not_escalated :
  let s := Scenario.store_item_and_other in
  let o := HarvestPap1.cleanup_p1433_duplicates
             Scenario.site_journal "Q7" (claims_of s "Q7" "P1433") s in
  res o = Raise AttributeError
  /\ outputs (evs o) = [MSameTargetDuplicates "Q5"; MRemovalCandidate;
                        MRemovalCandidate; MDuplicatesRemoved]
  /\ mutations (evs o) = [ERemoveClaim "Q7" 0 SumDuplicateRemoved;
                          ERemoveClaim "Q7" 1 SumDuplicateRemoved].
Proof. vm_compute. repeat split; reflexivity. Qed.

(** ** The walk over the ancestors *)

Section AncestorWalk.

Variable site : Site.

Lemma exists_queries_probe a : exists_queries (probe_events site a) = [a].
Proof.
  unfold probe_events. simpl. destruct (page_exists site a); [|done].
  simpl. by destruct (page_isRedirect site a).
Qed.

Lemma mutations_probe a : mutations (probe_events site a) = [].
Proof.
  unfold probe_events. simpl. destruct (page_exists site a); [|done].
  simpl. by destruct (page_isRedirect site a).
Qed.

Lemma exists_queries_skip a : exists_queries (skip_events site a) = [a].
Proof. unfold skip_events. cbn [exists_queries]. apply exists_queries_probe. Qed.

Lemma mutations_skip a : mutations (skip_events site a) = [].
Proof. unfold skip_events. apply mutations_probe. Qed.

Lemma exists_queries_skipped l :
  exists_queries (flat_map (skip_events site) l) = l.
Proof.
  induction l as [|a l IH]; [done|].
  cbn [flat_map]. by rewrite exists_queries_app, exists_queries_skip, IH.
Qed.

Lemma mutations_skipped l : mutations (flat_map (skip_events site) l) = [].
Proof.
  induction l as [|a l IH]; [done|].
  cbn [flat_map]. by rewrite mutations_app, mutations_skip, IH.
Qed.

Lemma estimate_loop_skip item all_yes a rest s :
  ancestor_item site a = None ->
  CheckP1433.estimate_loop site item all_yes (a :: rest) s
  = after (skip_events site a) (CheckP1433.estimate_loop site item all_yes rest s).
Proof.
  unfold ancestor_item, skip_events, probe_events, resolved. intros Hno.
  simpl. mstep. destruct (page_exists site a); simpl; [|done].
  mstep. unfold CheckP1433.get_item_for_page.
  destruct (page_isRedirect site a); mstep; rewrite Hno; reflexivity.
Qed.

Lemma estimate_loop_pass item all_yes pre l s :
  Forall (fun a => ancestor_item site a = None) pre ->
  CheckP1433.estimate_loop site item all_yes (pre ++ l) s
  = after (flat_map (skip_events site) pre)
          (CheckP1433.estimate_loop site item all_yes l s).
Proof.
  induction 1 as [|a pre Ha _ IH].
  - simpl. by rewrite after_nil.
  - rewrite <- app_comm_cons, (estimate_loop_skip _ _ _ _ _ Ha), IH.
    by rewrite after_after.
Qed.

Lemma estimate_loop_hit item all_yes c post q s :
  ancestor_item site c = Some q ->
  CheckP1433.estimate_loop site item all_yes (c :: post) s
  = after (skip_events site c ++ [EOut (MFound (resolved site c) q)])
          (estimated_proposal item all_yes (resolved site c) q s).
Proof.
  unfold ancestor_item, skip_events, probe_events, resolved. intros Hq.
  simpl. mstep. destruct (page_exists site c); simpl; [|done].
  mstep. unfold CheckP1433.get_item_for_page.
  destruct (page_isRedirect site c); mstep; rewrite Hq; mstep; reflexivity.
Qed.

Lemma guess_loop_skip a rest best s :
  ancestor_item site a = None ->
  CheckP1433.guess_loop site (a :: rest) best s
  = after (probe_events site a)
          (CheckP1433.guess_loop site rest (best_after site [a] best) s).
Proof.
  unfold ancestor_item, probe_events, resolved. intros Hno.
  simpl. mstep. destruct (page_exists site a); simpl; [|done].
  mstep.
  destruct (page_isRedirect site a) eqn:Er; mstep; rewrite Hno;
    unfold resolved; rewrite Er; reflexivity.
Qed.

Lemma guess_loop_pass pre l best s :
  Forall (fun a => ancestor_item site a = None) pre ->
  CheckP1433.guess_loop site (pre ++ l) best s
  = after (flat_map (probe_events site) pre)
          (CheckP1433.guess_loop site l (best_after site pre best) s).
Proof.
  intros Hpre. revert best.
  induction Hpre as [|a pre Ha _ IH]; intros best.
  - simpl. by rewrite after_nil.
  - rewrite <- app_comm_cons, (guess_loop_skip _ _ _ _ Ha), IH.
    rewrite after_after. reflexivity.
Qed.

Lemma guess_loop_hit c post best q s :
  ancestor_item site c = Some q ->
  CheckP1433.guess_loop site (c :: post) best s
  = mkOutcome (Ok (inl (resolved site c))) s (probe_events site c).
Proof.
  unfold ancestor_item, probe_events, resolved. intros Hq.
  simpl. mstep. destruct (page_exists site c); simpl; [|done].
  mstep. destruct (page_isRedirect site c); mstep; rewrite Hq; reflexivity.
Qed.

End AncestorWalk.

Lemma candidates_bottom_up_split (parts : list string) (k : nat) :
  1 <= k < length parts ->
  CheckP1433.candidates_bottom_up parts
  = List.map (fun i => Py.join_slash (take i parts))
             (rev (seq (S k) (length parts - 1 - k)))
    ++ Py.join_slash (take k parts)
    :: List.map (fun i => Py.join_slash (take i parts)) (rev (seq 1 (k - 1))).
Proof.
  intros Hk. unfold CheckP1433.candidates_bottom_up.
  replace (length parts - 1) with ((k - 1) + S (length parts - 1 - k)) at 1 by lia.
  rewrite seq_app. cbn [seq]. replace (1 + (k - 1)) with k by lia.
  rewrite rev_app_distr. cbn [rev]. rewrite List.map_app, List.map_app.
  cbn [List.map]. by rewrite <- app_assoc.
Qed.

Lemma candidates_top_down_rev (parts : list string) :
  rev (CheckP1433.candidates_top_down parts) = CheckP1433.candidates_bottom_up parts.
Proof.
  unfold CheckP1433.candidates_top_down, CheckP1433.candidates_bottom_up.
  by rewrite List.map_rev.
Qed.

Lemma confirm_loop_quiet (q : Prompt) (inp : list string) :
  mutations (snd (CheckP1433.confirm_loop q inp)) = []
  /\ exists_queries (snd (CheckP1433.confirm_loop q inp)) = [].
Proof.
  induction inp as [|a inp IH]; simpl; [done|].
  destruct (_ || _); simpl; [done|].
  destruct (CheckP1433.confirm_loop q inp) as [[r rest] ev]. simpl in *. done.
Qed.

Lemma confirm_outcome (q : Prompt) (s : Store) :
  exists r rest ev,
    CheckP1433.confirm q s = mkOutcome r (mkStore (kb s) rest (fresh s) (always_yes s)) ev
    /\ mutations ev = [] /\ exists_queries ev = [].
Proof.
  unfold CheckP1433.confirm.
  pose proof (confirm_loop_quiet q (stdin s)) as [Hm He].
  destruct (CheckP1433.confirm_loop q (stdin s)) as [[r rest] ev]. simpl in *.
  by exists r, rest, ev.
Qed.

Lemma estimated_proposal_quiet (item : Qid) (all_yes : bool) (a : Title) (q : Qid)
      (s : Store) :
  let o := estimated_proposal item all_yes a q s in
  (forall e, In e (mutations (evs o)) -> e = EAddClaim item "P1433" q SumEstimatedNoTitul)
  /\ exists_queries (evs o) = [].
Proof.
  unfold estimated_proposal, CheckP1433.answer. destruct all_yes.
  - mstep. split; [|done]. intros e [<-|[]]. done.
  - destruct (confirm_outcome (PConfirmAddEstimated q a) s)
      as (r & rest & ev & Hc & Hm & He).
    destruct r as [ans|e].
    + rewrite (bind_ok _ _ _ _ _ _ Hc).
      destruct (yes_or_all ans); mstep;
        rewrite mutations_app, exists_queries_app, Hm, He; simpl.
      * split; [|done]. intros e [<-|[]]. done.
      * split; [|done]. intros e [].
    + rewrite (bind_raise _ _ _ _ _ _ Hc). simpl. rewrite Hm, He.
      split; [|done]. intros ? [].
Qed.

(** C2. Without [TITUL] the ancestors are tried from the nearest to the
    farthest, and the first one that exists and, after redirect resolution,
    has an item decides: if the ancestor of [k] segments is such a page with
    item [q] and no longer ancestor is, then the existence checks are exactly
    those of the ancestors of [n-1] down to [k] segments, the page found is
    reported with [q], every edit made is the addition of [q], and in
    apply-all mode exactly that addition is made; [guess_base_title] returns
    the same ancestor. *)
Theorem C2_nearest_ancestor_with_item_wins
        (site : Site) (page : Title) (item : Qid) (all_yes : bool) (s : Store)
        (k : nat) (q : Qid) :
  let n := length (Py.split_slash page) in
  let a := resolved site (ancestor page k) in
  let o := CheckP1433.process_page site page all_yes s in
  item_fromPage site page = Some item ->
  Py.truthy_opt (get_param site page CheckP1433.TITUL) = false ->
  1 <= k < n ->
  (forall j, k < j < n -> ancestor_item site (ancestor page j) = None) ->
  ancestor_item site (ancestor page k) = Some q ->
  exists_queries (evs o) = List.map (ancestor page) (rev (seq k (n - k)))
  /\ In (EOut (MFound a q)) (evs o)
  /\ (forall e, In e (mutations (evs o)) ->
        e = EAddClaim item "P1433" q SumEstimatedNoTitul)
  /\ (all_yes = true ->
      res o = Ok true
      /\ mutations (evs o) = [EAddClaim item "P1433" q SumEstimatedNoTitul])
  /\ (forall tp s', res (CheckP1433.guess_base_title site page tp s') = Ok a).
Proof.
  intros n a o Hitem Hno Hk Hfar Hhit.
  set (parts := Py.split_slash page) in *.
  set (pre := List.map (ancestor page) (rev (seq (S k) (n - 1 - k)))).
  set (post := List.map (ancestor page) (rev (seq 1 (k - 1)))).
  assert (Hcands : CheckP1433.candidates_bottom_up parts
                   = pre ++ ancestor page k :: post)
    by (apply candidates_bottom_up_split; exact Hk).
  assert (Hpre : Forall (fun c => ancestor_item site c = None) pre).
  { apply List.Forall_forall. intros c Hc.
    apply in_map_iff in Hc. destruct Hc as (j & <- & Hj).
    apply in_rev, in_seq in Hj. apply Hfar. lia. }
  assert (Hwalk : List.map (ancestor page) (rev (seq k (n - k)))
                  = pre ++ [ancestor page k]).
  { replace (n - k) with (S (n - 1 - k)) by lia. cbn [seq rev].
    by rewrite List.map_app. }
  assert (Ho : o = after ([EOut (MHeader page); EQuery (QItemFromPage page);
                           EOut MNoTitul]
                            ++ flat_map (skip_events site) pre
                            ++ skip_events site (ancestor page k)
                            ++ [EOut (MFound a q)])
                         (estimated_proposal item all_yes a q s)).
  { subst o. unfold CheckP1433.process_page. mstep.
    rewrite Hitem, Hno. mstep.
    fold parts. replace (Nat.leb (length parts) 1) with false
      by (symmetry; apply Nat.leb_gt; fold n; lia).
    rewrite Hcands, (estimate_loop_pass _ _ _ _ _ _ Hpre).
    rewrite (estimate_loop_hit _ _ _ _ _ _ _ Hhit), !after_after.
    reflexivity. }
  pose proof (estimated_proposal_quiet item all_yes a q s) as [Hmut Hex].
  split; [|split; [|split; [|split]]].
  - rewrite Ho. unfold after. cbn [evs]. rewrite !exists_queries_app.
    rewrite exists_queries_skipped, exists_queries_skip, Hex, Hwalk. simpl.
    by rewrite app_nil_r.
  - rewrite Ho. unfold after. cbn [evs]. rewrite !app_assoc.
    apply in_or_app. left. apply in_or_app. right. by left.
  - rewrite Ho. unfold after. cbn [evs]. rewrite !mutations_app.
    rewrite mutations_skipped, mutations_skip. simpl. exact Hmut.
  - intros ->. rewrite Ho. unfold after. cbn [evs res]. rewrite !mutations_app.
    rewrite mutations_skipped, mutations_skip. simpl.
    unfold estimated_proposal, CheckP1433.answer. mstep. done.
  - intros tp s'. unfold CheckP1433.guess_base_title. fold parts.
    replace (Nat.eqb (length parts) 1) with false
      by (symmetry; apply Nat.eqb_neq; fold n; lia).
    rewrite candidates_top_down_rev, Hcands.
    unfold bind. rewrite (guess_loop_pass _ _ _ _ _ Hpre).
    rewrite (guess_loop_hit _ _ _ _ _ _ Hhit). reflexivity.
Qed.

Lemma C2_witness :
  let o := CheckP1433.process_page Scenario.site_abcd "A/B/C/D" true Scenario.store_abcd in
  item_fromPage Scenario.site_abcd "A" = Some "Q1"
  /\ item_fromPage Scenario.site_abcd "A/B" = Some "Q2"
  /\ exists_queries (evs o) = ["A/B/C"; "A/B"]
  /\ mutations (evs o) = [EAddClaim "Q4" "P1433" "Q2" SumEstimatedNoTitul]
  /\ (forall tp s', res (CheckP1433.guess_base_title Scenario.site_abcd "A/B/C/D" tp s')
                    = Ok "A/B").
Proof.
  intros o.
  assert (Hk : 1 <= 2 < length (Py.split_slash "A/B/C/D")) by (vm_compute; lia).
  assert (Hfar : forall j, 2 < j < length (Py.split_slash "A/B/C/D") ->
                   ancestor_item Scenario.site_abcd (ancestor "A/B/C/D" j) = None).
  { intros j Hj. assert (j = 3) as -> by (vm_compute in Hj; lia). reflexivity. }
  pose proof (C2_nearest_ancestor_with_item_wins
                Scenario.site_abcd "A/B/C/D" "Q4" true Scenario.store_abcd 2 "Q2"
                eq_refl eq_refl Hk Hfar eq_refl)
    as (Hex & _ & _ & Hyes & Hguess).
  split; [reflexivity|]. split; [reflexivity|].
  split; [exact Hex|]. split; [exact (proj2 (Hyes eq_refl))|]. exact Hguess.
Defined.

(** ** The declared title *)

Lemma guess_loop_get_param site gp l best s :
  CheckP1433.guess_loop (with_get_param site gp) l best s
  = CheckP1433.guess_loop site l best s.
Proof.
  revert best s. induction l as [|c l IH]; intros best s; [reflexivity|].
  simpl. mstep. destruct (page_exists site c); simpl; [|by rewrite IH].
  mstep. destruct (page_isRedirect site c); mstep;
    (destruct (item_fromPage site _); [reflexivity | by rewrite IH]).
Qed.

Lemma guess_base_title_ignores site gp page tp tp' s :
  CheckP1433.guess_base_title (with_get_param site gp) page tp s
  = CheckP1433.guess_base_title site page tp' s.
Proof.
  unfold CheckP1433.guess_base_title.
  destruct (Nat.eqb _ 1); [reflexivity|].
  unfold bind. by rewrite guess_loop_get_param.
Qed.

(** C1 (amended). For a page whose navigation template declares a non-empty
    [TITUL], the declared value plays no part: [guess_base_title] computes
    the base title from the page's own path, and the whole outcome of
    [process_page] (result, store, trace) is the same for any other
    non-empty declared title. *)
Theorem C1_declared_title_is_ignored
        (site : Site) (gp : Title -> string -> option string)
        (page : Title) (all_yes : bool) (s : Store) :
  Py.truthy_opt (get_param site page CheckP1433.TITUL) = true ->
  Py.truthy_opt (gp page CheckP1433.TITUL) = true ->
  (forall tp tp', CheckP1433.guess_base_title (with_get_param site gp) page tp s
                  = CheckP1433.guess_base_title site page tp' s)
  /\ CheckP1433.process_page (with_get_param site gp) page all_yes s
     = CheckP1433.process_page site page all_yes s.
Proof.
  intros H1 H2. split; [intros; apply guess_base_title_ignores|].
  unfold CheckP1433.process_page. mstep.
  destruct (item_fromPage site page) as [item|]; [|reflexivity].
  rewrite H1, H2. simpl. apply (f_equal (after _)).
  apply bind_cong; [apply guess_base_title_ignores | reflexivity].
Qed.

Lemma C1_witness :
  let gp := fun (_ : Title) (_ : string) => Some "Some other title" in
  CheckP1433.process_page (with_get_param Scenario.site_declared_title gp)
                          "A/B" true Scenario.store_declared_title
  = CheckP1433.process_page Scenario.site_declared_title
                            "A/B" true Scenario.store_declared_title.
Proof.
  intros gp.
  apply (C1_declared_title_is_ignored Scenario.site_declared_title gp
           "A/B" true Scenario.store_declared_title); reflexivity.
Defined.

(** C1, as stated, fails: page [A/B] declares [TITUL=X] and page [X] has an
    item, yet the only item lookups are those of the page itself and of its
    parent [A], whose item [Q2] is the target that is added. *)
Lemma C1_counterexample :
  get_param Scenario.site_declared_title "A/B" CheckP1433.TITUL = Some "X"
  /\ item_fromPage Scenario.site_declared_title "X" = Some "Q9"
  /\ ~ resolves_declared_title_first Scenario.site_declared_title "A/B" true
                                     Scenario.store_declared_title
  /\ mutations (evs (CheckP1433.process_page Scenario.site_declared_title "A/B" true
                                             Scenario.store_declared_title))
     = [EAddClaim "Q1" "P1433" "Q2" SumAdded].
Proof.
  split; [reflexivity|]. split; [reflexivity|]. split; [|reflexivity].
  intros H. destruct (H "X" eq_refl) as [rest Hrest].
  vm_compute in Hrest. discriminate.
Qed.

(** ** The apply-all flag of check_P1433.py *)

Lemma confirmations_app tr1 tr2 :
  confirmations (tr1 ++ tr2) = confirmations tr1 ++ confirmations tr2.
Proof. apply List.filter_app. Qed.

Lemma stays_after ev (o : Outcome bool) :
  confirmations ev = [] -> stays_apply_all o -> stays_apply_all (after ev o).
Proof.
  intros Hev [Hc Hr]. split; simpl; [|exact Hr].
  by rewrite confirmations_app, Hev, Hc.
Qed.

Lemma stays_bind {A} (m : M A) (f : A -> M bool) s :
  confirmations (evs (m s)) = [] ->
  (forall a s', stays_apply_all (f a s')) ->
  stays_apply_all (bind m f s).
Proof.
  intros Hm Hf. unfold bind.
  destruct (m s) as [[a|e] s' ev]; simpl in *.
  - destruct (Hf a s') as [Hc Hr]. split; simpl; [|exact Hr].
    by rewrite confirmations_app, Hm, Hc.
  - split; simpl; [exact Hm | discriminate].
Qed.

Lemma stays_ret_true s : stays_apply_all (ret true s).
Proof. split; simpl; [done | by intros b [= <-]]. Qed.

Lemma stays_raise e s : stays_apply_all (raise e s).
Proof. split; simpl; [done | discriminate]. Qed.

Lemma stays_add item q sm s :
  stays_apply_all
    ((run addClaim item "P1433" q sm; ret (CheckP1433.updated_all_yes "y" true)) s).
Proof. apply stays_bind; [reflexivity | intros; apply stays_ret_true]. Qed.

Lemma estimate_loop_stays site item l s :
  stays_apply_all (CheckP1433.estimate_loop site item true l s).
Proof.
  revert s. induction l as [|c l IH]; intros s; simpl.
  - mstep. apply stays_after; [done | apply stays_ret_true].
  - mstep. destruct (page_exists site c); simpl;
      [|apply stays_after; [done | apply IH]].
    mstep. unfold CheckP1433.get_item_for_page.
    destruct (page_isRedirect site c); mstep;
      (destruct (item_fromPage site _); mstep;
       (apply stays_after; [done | first [apply stays_add | apply IH]])).
Qed.

Lemma guess_loop_no_confirmation site l best s :
  confirmations (evs (CheckP1433.guess_loop site l best s)) = [].
Proof.
  revert best s. induction l as [|c l IH]; intros best s; simpl; [done|].
  mstep. destruct (page_exists site c); simpl; [|apply IH].
  mstep. destruct (page_isRedirect site c); mstep;
    (destruct (item_fromPage site _); simpl; [done | apply IH]).
Qed.

Lemma guess_base_title_no_confirmation site page tp s :
  confirmations (evs (CheckP1433.guess_base_title site page tp s)) = [].
Proof.
  unfold CheckP1433.guess_base_title. destruct (Nat.eqb _ 1); [done|].
  unfold bind.
  pose proof (guess_loop_no_confirmation site
                (rev (CheckP1433.candidates_top_down (Py.split_slash page))) None s) as H.
  destruct (CheckP1433.guess_loop site _ None s) as [[[t|b]|e] s' ev];
    simpl in *; by rewrite ?app_nil_r.
Qed.

Lemma print_candidates_no_confirmation i l s :
  confirmations (evs (CheckP1433.print_candidates i l s)) = [].
Proof.
  revert i. induction l as [|c l IH]; intros i; simpl; [done|].
  mstep. apply IH.
Qed.

Lemma get_publication_item_silent claims s :
  confirmations (evs (CheckP1433.get_publication_item claims s)) = [].
Proof.
  unfold CheckP1433.get_publication_item.
  destruct (claims !! "P1433") as [[|c l]|]; try done.
  by destruct (ctarget c).
Qed.

Lemma multi_level_guess_stays site page item base s :
  confirmations (evs (CheckP1433.multi_level_guess site page item true base s)) = []
  /\ forall b, res (CheckP1433.multi_level_guess site page item true base s)
               = Ok (Some b) -> b = true.
Proof.
  unfold CheckP1433.multi_level_guess.
  destruct (Nat.ltb 2 _); [|by split].
  destruct (negb _); [|by split].
  mstep. unfold CheckP1433.get_item_for_page. mstep.
  destruct (item_fromPage site _) as [ci|]; mstep; [|by split].
  unfold CheckP1433.get_publication_item.
  destruct (item_claims_of s item !! "P1433") as [[|c l]|]; mstep;
    try (destruct (ctarget c); mstep);
    (split; [done | first [discriminate | by intros b [= <-]]]).
Qed.

Lemma similar_titles_stays site item base s :
  stays_apply_all (CheckP1433.similar_titles site item true base s).
Proof.
  unfold CheckP1433.similar_titles. mstep. apply stays_after; [done|].
  destruct (CheckP1433.scan_similar _ _ _) as [|p alt] eqn:Ealt.
  - mstep. apply stays_after; [done | apply stays_ret_true].
  - mstep. apply stays_after; [done|].
    apply stays_bind;
      [exact (print_candidates_no_confirmation 1 (p :: alt) s)|]. intros _ s1.
    apply stays_bind.
    { unfold input. by destruct (stdin s1). }
    intros line s2. destruct (_ && _); [|apply stays_ret_true].
    unfold CheckP1433.get_item_for_page. mstep. apply stays_after; [done|].
    destruct (item_fromPage site _); mstep;
      [apply stays_add | apply stays_after; [done | apply stays_ret_true]].
Qed.

Lemma reconcile_stays site item expected s :
  stays_apply_all (CheckP1433.reconcile site item true expected s).
Proof.
  unfold CheckP1433.reconcile. mstep. apply stays_after; [done|].
  apply stays_bind; [apply get_publication_item_silent|].
  intros [cur|] s1; mstep.
  - destruct (String.eqb cur expected); mstep.
    + apply stays_after; [done | apply stays_ret_true].
    + apply stays_after; [done|].
      destruct (default [] _) as [|c l]; [apply stays_raise|].
      apply stays_bind; [|intros; apply stays_ret_true].
      unfold changeTarget. by destruct (has_cid _ _).
  - apply stays_after; [done | apply stays_add].
Qed.

(** In apply-all mode [process_page] asks for no confirmation and hands the
    flag on still set. *)
Lemma process_page_stays_apply_all site page s :
  stays_apply_all (CheckP1433.process_page site page true s).
Proof.
  unfold CheckP1433.process_page. mstep. apply stays_after; [done|].
  destruct (item_fromPage site page) as [item|]; mstep;
    [|apply stays_after; [done | apply stays_ret_true]].
  destruct (negb _); mstep.
  - apply stays_after; [done|].
    destruct (Nat.leb _ 1); mstep;
      [apply stays_after; [done | apply stays_ret_true]
      | apply estimate_loop_stays].
  - apply stays_bind; [apply guess_base_title_no_confirmation|].
    intros base s1. unfold CheckP1433.get_item_for_page. mstep.
    apply stays_after; [done|].
    destruct (item_fromPage site base) as [ei|]; [apply reconcile_stays|].
    mstep. apply stays_after; [done|].
    pose proof (multi_level_guess_stays site page item base s1) as [Hc Hr].
    unfold bind.
    destruct (CheckP1433.multi_level_guess site page item true base s1)
      as [[[b|]|e] s2 ev]; cbn [res st evs] in *.
    + split; cbn [res evs ret];
        [by rewrite app_nil_r | intros b' [= <-]; by apply Hr].
    + apply (stays_after ev _ Hc), similar_titles_stays.
    + split; cbn [res evs]; [exact Hc | discriminate].
Qed.

(** Once the flag is set, the rest of a run of [check_P1433.main] asks for no
    confirmation. *)
Lemma main_loop_apply_all_asks_nothing site gen s :
  confirmations (evs (CheckP1433.main_loop site gen true s)) = [].
Proof.
  revert s. induction gen as [|page gen IH]; intros s; simpl; [done|].
  mstep. destruct (page_exists site page); simpl; [|apply IH].
  mstep. destruct (page_isRedirect site page); simpl; [apply IH|].
  destruct (process_page_stays_apply_all site page s) as [Hc Hr].
  unfold bind.
  destruct (CheckP1433.process_page site page true s) as [[b|e] s1 ev];
    simpl in *; [|exact Hc].
  rewrite (Hr b eq_refl), confirmations_app, Hc. apply IH.
Qed.

(** The answer a to a confirmation sets the flag that is handed on. *)
Lemma answer_all_sets_the_flag item a q s rest :
  stdin s = "a" :: rest ->
  res (estimated_proposal item false a q s) = Ok true
  /\ confirmations (evs (estimated_proposal item false a q s))
     = [EAsk (PConfirmAddEstimated q a)].
Proof.
  intros Hin. unfold estimated_proposal, CheckP1433.answer, CheckP1433.confirm, bind.
  rewrite Hin. split; reflexivity.
Qed.

(** ** Behaviour at concrete inputs *)

(** C3. Page [A/B] has no [TITUL] and its parent [A] has item [Q1].  The
    first run of [main] adds P1433 = Q1 to the page's item; a second run on
    the resulting knowledge base adds the same claim once more, so the item
    ends with two claims for the same target. *)
Theorem C3_second_run_adds_the_claim_again :
  let site := Scenario.site_no_titul in
  let run1 := CheckP1433.main site (Some ["A/B"]) Scenario.store_no_titul in
  let run2 := CheckP1433.main site (Some ["A/B"]) (st run1) in
  res run1 = Ok tt
  /\ mutations (evs run1) = [EAddClaim "Q2" "P1433" "Q1" SumEstimatedNoTitul]
  /\ List.map ctarget (claims_of (st run1) "Q2" "P1433") = [TItem "Q1"]
  /\ res run2 = Ok tt
  /\ mutations (evs run2) = [EAddClaim "Q2" "P1433" "Q1" SumEstimatedNoTitul]
  /\ List.map ctarget (claims_of (st run2) "Q2" "P1433") = [TItem "Q1"; TItem "Q1"].
Proof. vm_compute. repeat split; reflexivity. Qed.

(** C4. Item [Q7] carries two P1433 claims for [Q100], none of them
    qualified.  After the operator confirms the removal, both are removed
    and no claim for [Q100] is left on the item. *)
Theorem C4_confirmed_dedup_removes_every_plain_claim :
  let s := Scenario.store_all_plain in
  let cs := claims_of s "Q7" "P1433" in
  let o := HarvestPap1.cleanup_p1433_duplicates Scenario.site_journal "Q7" cs s in
  List.map ctarget cs = [TItem "Q100"; TItem "Q100"]
  /\ List.map HarvestPap1.has_qualifiers cs = [false; false]
  /\ mutations (evs o) = [ERemoveClaim "Q7" 0 SumDuplicateRemoved;
                         ERemoveClaim "Q7" 1 SumDuplicateRemoved]
  /\ claims_of (st o) "Q7" "P1433" = [].
Proof. vm_compute. repeat split; reflexivity. Qed.

(** C6. Page [A/B/C] declares [TITUL]; the multi-level candidate [A/B/A]
    has item [Q7], and the page's item already has P1433 = Q7.  Processing
    does not return: it raises [UnboundLocalError] (no prompt and no edit
    precede it), and so does the whole run of [main]. *)
Theorem C6_existing_target_raises :
  let site := Scenario.site_multi_level in
  let s := Scenario.store_multi_level in
  let o := CheckP1433.process_page site "A/B/C" false s in
  List.map ctarget (claims_of s "Q1" "P1433") = [TItem "Q7"]
  /\ item_fromPage site "A/B/A" = Some "Q7"
  /\ In (EOut (MTryingFull "A/B/A")) (evs o)
  /\ res o = Raise UnboundLocalError
  /\ mutations (evs o) = [] /\ confirmations (evs o) = []
  /\ res (CheckP1433.main site (Some ["A/B/C"]) s) = Raise UnboundLocalError.
Proof.
  vm_compute. repeat split; try reflexivity.
  do 8 right. left. reflexivity.
Qed.

(** C7. Item [Q7] carries a plain claim (identity 0) followed by a qualified
    claim (identity 1), both for [Q100].  After the confirmed removal the
    claim handed on for qualifier attachment is claim 0: it has no
    qualifier although claim 1 has one, and it is no longer on the item.
    With two plain claims the claim handed on is a removed one as well. *)
Theorem C7_returned_claim_is_the_removed_one :
  let s := Scenario.store_plain_first in
  let cs := claims_of s "Q7" "P1433" in
  let o := HarvestPap1.cleanup_p1433_duplicates Scenario.site_journal "Q7" cs s in
  let s' := Scenario.store_all_plain in
  let o' := HarvestPap1.cleanup_p1433_duplicates
              Scenario.site_journal "Q7" (claims_of s' "Q7" "P1433") s' in
  List.map cid cs = [0; 1]
  /\ List.map HarvestPap1.has_qualifiers cs = [false; true]
  /\ mutations (evs o) = [ERemoveClaim "Q7" 0 SumDuplicateRemoved]
  /\ res o = Ok (Some (Scenario.plain 0 "Q100"))
  /\ List.map cid (claims_of (st o) "Q7" "P1433") = [1]
  /\ res o' = Ok (Some (Scenario.plain 0 "Q100"))
  /\ List.map cid (claims_of (st o') "Q7" "P1433") = [].
Proof. vm_compute. repeat split; reflexivity. Qed.

(** C8. The harvester visits two pages whose items each carry a qualified
    claim and a plain duplicate.  The operator answers a on the first page:
    [always_yes] becomes true and stays true, yet the second page asks for
    confirmation again, and as the answer there is n its duplicate stays. *)
Theorem C8_harvester_asks_again_after_all :
  let site := Scenario.site_journal in
  let o1 := HarvestPap1.process_page site "J/P7" Scenario.store_two_pages in
  let o2 := HarvestPap1.process_page site "J/P8" (st o1) in
  let o := HarvestPap1.main site (Some ["J/P7"; "J/P8"]) Scenario.store_two_pages in
  stdin Scenario.store_two_pages = ["a"; "n"]
  /\ always_yes (st o1) = true
  /\ confirmations (evs o2) = [EAsk PRemoveDuplicates]
  /\ always_yes (st o2) = true
  /\ res o = Ok tt
  /\ confirmations (evs o) = [EAsk PRemoveDuplicates; EAsk PRemoveDuplicates]
  /\ mutations (evs o) = [ERemoveClaim "Q7" 1 SumDuplicateRemoved]
  /\ List.map cid (claims_of (st o) "Q8" "P1433") = [2; 3].
Proof. vm_compute. repeat split; reflexivity. Qed.

(** * Further properties of the embedded code *)

(** ** Paths: splitting, joining, ancestors *)

Lemma join_split_id (s : string) : Py.join_slash (Py.split_slash s) = s.
Proof.
  induction s as [|c s IH]; [reflexivity|].
  cbn [Py.split_slash]. destruct (Ascii.eqb c "/") eqn:Ec.
  - apply Ascii.eqb_eq in Ec. subst c.
    pose proof (split_slash_nonempty s) as Hne.
    destruct (Py.split_slash s) as [|p ps] eqn:E; [done|].
    change (Py.join_slash ("" :: p :: ps))
      with ("" ++ "/" ++ Py.join_slash (p :: ps))%string.
    rewrite IH. reflexivity.
  - destruct (Py.split_slash s) as [|p ps] eqn:E.
    + by destruct (split_slash_nonempty s).
    + destruct ps as [|p' ps]; cbn [Py.join_slash] in *; by rewrite <- IH.
Qed.

(** X1. Joining the segments of a title with the separator gives the title
    back: ["/".join(t.split("/")) == t]. *)
Theorem join_slash_split_slash (s : string) :
  Py.join_slash (Py.split_slash s) = s.
Proof. apply join_split_id. Qed.

Lemma prefix_empty (s : string) : String.prefix "" s = true.
Proof. by destruct s. Qed.

Lemma contains_slash_cons (c : ascii) (s : string) :
  Py.contains "/" (String c s) = Ascii.eqb c "/" || Py.contains "/" s.
Proof.
  cbn [Py.contains String.prefix].
  destruct (ascii_dec "/" c) as [<-|Hne].
  - by rewrite prefix_empty.
  - rewrite (proj2 (Ascii.eqb_neq c "/")); [done | congruence].
Qed.

Lemma split_slash_no_slash (x : string) :
  Py.contains "/" x = false -> Py.split_slash x = [x].
Proof.
  induction x as [|c x IH]; [reflexivity|].
  rewrite contains_slash_cons. intros H. apply orb_false_iff in H as [Hc Hx].
  cbn [Py.split_slash]. rewrite Hc, (IH Hx). reflexivity.
Qed.

Lemma split_slash_app (x rest : string) :
  Py.contains "/" x = false ->
  Py.split_slash (x ++ "/" ++ rest) = x :: Py.split_slash rest.
Proof.
  induction x as [|c x IH].
  - intros _. reflexivity.
  - rewrite contains_slash_cons. intros H. apply orb_false_iff in H as [Hc Hx].
    change ((String c x ++ "/" ++ rest)%string)
      with (String c (x ++ "/" ++ rest)%string).
    cbn [Py.split_slash]. rewrite Hc, (IH Hx). reflexivity.
Qed.

(** X2. Splitting a joined path gives its segments back, provided there is
    at least one segment and no segment contains the separator. *)
Theorem split_slash_join_slash (l : list string) :
  l <> [] ->
  Forall (fun x => Py.contains "/" x = false) l ->
  Py.split_slash (Py.join_slash l) = l.
Proof.
  intros Hne Hall. induction Hall as [|x l Hx Hall IH]; [done|].
  destruct l as [|y l].
  - cbn [Py.join_slash]. by apply split_slash_no_slash.
  - cbn [Py.join_slash]. rewrite (split_slash_app _ _ Hx).
    f_equal. by apply IH.
Qed.

Lemma split_slash_join_slash_witness :
  Py.split_slash (Py.join_slash ["Journal"; "1925"; "No3"]) = ["Journal"; "1925"; "No3"].
Proof.
  apply split_slash_join_slash; [discriminate|].
  repeat constructor.
Defined.

Lemma prefix_app_same (x a b : string) :
  String.prefix a b = true -> String.prefix (x ++ a) (x ++ b) = true.
Proof.
  intros H. induction x as [|c x IH]; [exact H|].
  change (String.prefix (String c (x ++ a)%string) (String c (x ++ b)%string) = true).
  cbn [String.prefix]. destruct (ascii_dec c c); [exact IH | done].
Qed.

Lemma prefix_app_self (x t : string) : String.prefix x (x ++ t) = true.
Proof.
  induction x as [|c x IH]; [apply prefix_empty|].
  change (String.prefix (String c x) (String c (x ++ t)%string) = true).
  cbn [String.prefix]. destruct (ascii_dec c c); [exact IH | done].
Qed.

Lemma prefix_refl (x : string) : String.prefix x x = true.
Proof.
  induction x as [|c x IH]; [done|].
  cbn [String.prefix]. destruct (ascii_dec c c); [exact IH | done].
Qed.

Lemma join_take_prefix (l : list string) (k : nat) :
  String.prefix (Py.join_slash (take k l)) (Py.join_slash l) = true.
Proof.
  revert k. induction l as [|x l IH]; intros k.
  - by destruct k.
  - destruct k as [|k]; [apply prefix_empty|].
    cbn [take]. destruct l as [|y l].
    + destruct k; cbn [take Py.join_slash]; apply prefix_refl.
    + destruct k as [|k].
      * cbn [take Py.join_slash]. apply prefix_app_self.
      * specialize (IH (S k)). cbn [take] in *.
        change (Py.join_slash (x :: y :: take k l))
          with (x ++ "/" ++ Py.join_slash (y :: take k l))%string.
        change (Py.join_slash (x :: y :: l))
          with (x ++ "/" ++ Py.join_slash (y :: l))%string.
        apply prefix_app_same. apply (prefix_app_same "/"). exact IH.
Qed.

(** X3. Every ancestor candidate is a prefix of the page title, and the
    "ancestor" made of all segments is the title itself. *)
Theorem ancestor_is_prefix (page : Title) (k : nat) :
  Py.startswith page (ancestor page k) = true
  /\ ancestor page (length (Py.split_slash page)) = page.
Proof.
  unfold Py.startswith, ancestor. split.
  - rewrite <- (join_split_id page) at 2. apply join_take_prefix.
  - rewrite firstn_all. apply join_split_id.
Qed.

(** ** The confirmation loop and the search for similar titles *)







(** ** The resolver when no ancestor has an item *)

Lemma best_after_app site pre l best :
  best_after site (pre ++ l) best = best_after site l (best_after site pre best).
Proof. revert best. induction pre as [|a pre IH]; intros best; [done|]. apply IH. Qed.

Lemma best_after_missing site l best :
  Forall (fun a => page_exists site a = false) l -> best_after site l best = best.
Proof.
  intros H. revert best. induction H as [|a l Ha _ IH]; intros best; [done|].
  cbn [best_after]. rewrite Ha. apply IH.
Qed.

Lemma guess_loop_all_fail site l best s :
  Forall (fun a => ancestor_item site a = None) l ->
  CheckP1433.guess_loop site l best s
  = mkOutcome (Ok (inr (best_after site l best))) s (flat_map (probe_events site) l).
Proof.
  intros H. rewrite <- (app_nil_r l) at 1.
  rewrite (guess_loop_pass site l [] best s H). unfold after. cbn.
  by rewrite app_nil_r.
Qed.

Lemma ancestors_all_fail site page :
  (forall j, 1 <= j < length (Py.split_slash page) ->
             ancestor_item site (ancestor page j) = None) ->
  Forall (fun a => ancestor_item site a = None)
         (CheckP1433.candidates_bottom_up (Py.split_slash page)).
Proof.
  intros H. apply List.Forall_forall. intros a Ha.
  apply in_map_iff in Ha as (j & <- & Hj). apply in_rev, in_seq in Hj.
  apply H. lia.
Qed.

Lemma missing_has_no_item site a :
  page_exists site a = false -> ancestor_item site a = None.
Proof. unfold ancestor_item. by intros ->. Qed.

(** X7. Highest-ancestor fallback of [guess_base_title]: when no ancestor
    yields an item, the result is the title (after redirect resolution) of
    the existing ancestor with the fewest segments, or the first segment if
    that title is empty. *)
Theorem guess_base_title_falls_back_to_highest_existing
        (site : Site) (page : Title) (tp : option string) (s : Store) (k : nat) :
  let n := length (Py.split_slash page) in
  1 <= k < n ->
  (forall j, 1 <= j < n -> ancestor_item site (ancestor page j) = None) ->
  page_exists site (ancestor page k) = true ->
  (forall j, 1 <= j < k -> page_exists site (ancestor page j) = false) ->
  res (CheckP1433.guess_base_title site page tp s)
  = Ok (or_else (resolved site (ancestor page k)) (first_segment page)).
Proof.
  intros n Hk Hnone Hex Hlow.
  unfold CheckP1433.guess_base_title.
  replace (Nat.eqb (length (Py.split_slash page)) 1) with false
    by (symmetry; apply Nat.eqb_neq; fold n; lia).
  rewrite candidates_top_down_rev. unfold bind.
  rewrite (guess_loop_all_fail _ _ _ _ (ancestors_all_fail site page Hnone)).
  cbn [res st evs ret].
  rewrite (candidates_bottom_up_split _ k Hk), best_after_app.
  cbn [best_after]. fold (ancestor page k). rewrite Hex.
  rewrite best_after_missing.
  - reflexivity.
  - apply List.Forall_forall. intros a Ha.
    apply in_map_iff in Ha as (j & <- & Hj). apply in_rev, in_seq in Hj.
    apply Hlow. lia.
Qed.

Lemma guess_base_title_falls_back_to_highest_existing_witness :
  res (CheckP1433.guess_base_title Scenario2.site_top_only "A/B/C" None
                                   Scenario2.store_q3)
  = Ok "A".
Proof.
  apply (guess_base_title_falls_back_to_highest_existing
           Scenario2.site_top_only "A/B/C" None Scenario2.store_q3 1).
  - vm_compute. lia.
  - intros j Hj. assert (j = 1 \/ j = 2) as [-> | ->] by (vm_compute in Hj; lia);
      reflexivity.
  - reflexivity.
  - intros j Hj. lia.
Defined.

(** X8. When no ancestor of a page with several segments exists at all,
    [guess_base_title] returns the first segment of the title. *)
Theorem guess_base_title_without_existing_ancestor
        (site : Site) (page : Title) (tp : option string) (s : Store) :
  1 < length (Py.split_slash page) ->
  (forall j, 1 <= j < length (Py.split_slash page) ->
             page_exists site (ancestor page j) = false) ->
  res (CheckP1433.guess_base_title site page tp s) = Ok (first_segment page).
Proof.
  intros Hn Hmiss.
  assert (Hnone : forall j, 1 <= j < length (Py.split_slash page) ->
                            ancestor_item site (ancestor page j) = None)
    by (intros; by apply missing_has_no_item, Hmiss).
  unfold CheckP1433.guess_base_title.
  replace (Nat.eqb (length (Py.split_slash page)) 1) with false
    by (symmetry; apply Nat.eqb_neq; lia).
  rewrite candidates_top_down_rev. unfold bind.
  rewrite (guess_loop_all_fail _ _ _ _ (ancestors_all_fail site page Hnone)).
  cbn [res st evs ret]. rewrite best_after_missing; [reflexivity|].
  apply List.Forall_forall. intros a Ha.
  apply in_map_iff in Ha as (j & <- & Hj). apply in_rev, in_seq in Hj.
  apply Hmiss. lia.
Qed.

Lemma guess_base_title_without_existing_ancestor_witness :
  res (CheckP1433.guess_base_title Scenario2.site_orphan "A/B/C" None
                                   Scenario2.store_q3)
  = Ok "A".
Proof.
  apply (guess_base_title_without_existing_ancestor
           Scenario2.site_orphan "A/B/C" None Scenario2.store_q3).
  - vm_compute. lia.
  - intros j Hj. assert (j = 1 \/ j = 2) as [-> | ->] by (vm_compute in Hj; lia);
      reflexivity.
Defined.

Lemma guess_loop_read_only site l best s :
  st (CheckP1433.guess_loop site l best s) = s
  /\ forallb is_query (evs (CheckP1433.guess_loop site l best s)) = true.
Proof.
  revert best s. induction l as [|c l IH]; intros best s; [done|].
  cbn [CheckP1433.guess_loop]. mstep.
  destruct (page_exists site c); cbn [negb]; [|apply IH].
  mstep. destruct (page_isRedirect site c); mstep;
    (destruct (item_fromPage site _); [done | apply IH]).
Qed.

Lemma guess_base_title_queries_only site page tp s :
  st (CheckP1433.guess_base_title site page tp s) = s
  /\ forallb is_query (evs (CheckP1433.guess_base_title site page tp s)) = true.
Proof.
  unfold CheckP1433.guess_base_title.
  destruct (Nat.eqb _ 1); [done|]. unfold bind.
  pose proof (guess_loop_read_only site
                (rev (CheckP1433.candidates_top_down (Py.split_slash page))) None s)
    as [Hst Hq].
  destruct (CheckP1433.guess_loop site _ None s) as [[[t|b]|e] s' ev];
    cbn [res st evs ret] in *; by rewrite ?app_nil_r.
Qed.

(** X9. [guess_base_title] only reads: whatever the wiki looks like, it
    leaves the store as it was and its trace consists of queries (no
    message, no prompt, no edit). *)
Theorem guess_base_title_read_only
        (site : Site) (page : Title) (tp : option string) (s : Store) :
  let o := CheckP1433.guess_base_title site page tp s in
  st o = s /\ forallb is_query (evs o) = true.
Proof. apply guess_base_title_queries_only. Qed.

(** ** The branch without [TITUL] when nothing is found *)

Lemma estimate_loop_all_fail site item all_yes l s :
  Forall (fun a => ancestor_item site a = None) l ->
  CheckP1433.estimate_loop site item all_yes l s
  = mkOutcome (Ok all_yes) s
              (flat_map (skip_events site) l ++ [EOut MNoAncestorItem]).
Proof.
  intros H. rewrite <- (app_nil_r l) at 1.
  rewrite (estimate_loop_pass site item all_yes l [] s H).
  cbn [CheckP1433.estimate_loop]. mstep. unfold after, ret. cbn [res st evs].
  by rewrite app_nil_r.
Qed.

(** X10. Without [TITUL], when no ancestor of the page yields an item,
    every ancestor is checked, nearest first, the page is reported as having
    no ancestor with an item, and nothing is asked or edited: the flag and
    the store come back unchanged. *)
Theorem process_page_no_ancestor_item
        (site : Site) (page : Title) (item : Qid) (all_yes : bool) (s : Store) :
  let o := CheckP1433.process_page site page all_yes s in
  item_fromPage site page = Some item ->
  Py.truthy_opt (get_param site page CheckP1433.TITUL) = false ->
  1 < length (Py.split_slash page) ->
  (forall j, 1 <= j < length (Py.split_slash page) ->
             ancestor_item site (ancestor page j) = None) ->
  res o = Ok all_yes /\ st o = s
  /\ mutations (evs o) = [] /\ confirmations (evs o) = []
  /\ exists_queries (evs o) = ancestors_nearest_first page
  /\ outputs (evs o)
     = MHeader page :: MNoTitul
       :: List.map MTryingEstimate (ancestors_nearest_first page)
       ++ [MNoAncestorItem].
Proof.
  intros o Hitem Hno Hn Hnone. subst o.
  unfold CheckP1433.process_page. mstep. rewrite Hitem, Hno. mstep.
  replace (Nat.leb (length (Py.split_slash page)) 1) with false
    by (symmetry; apply Nat.leb_gt; lia).
  rewrite (estimate_loop_all_fail _ _ _ _ _ (ancestors_all_fail site page Hnone)).
  unfold after. cbn [res st evs].
  change (CheckP1433.candidates_bottom_up (Py.split_slash page))
    with (ancestors_nearest_first page).
  generalize (ancestors_nearest_first page) as l. intros l.
  split; [done|]. split; [done|].
  assert (Hl : mutations (flat_map (skip_events site) l) = []
               /\ confirmations (flat_map (skip_events site) l) = []
               /\ exists_queries (flat_map (skip_events site) l) = l
               /\ outputs (flat_map (skip_events site) l) = List.map MTryingEstimate l).
  { split; [apply mutations_skipped|]. split; [|split; [apply exists_queries_skipped|]].
    - induction l as [|a l IH]; [done|]. cbn [flat_map].
      rewrite confirmations_app, IH, app_nil_r.
      unfold skip_events, probe_events. cbn.
      destruct (page_exists site a); [|done]. cbn.
      by destruct (page_isRedirect site a).
    - induction l as [|a l IH]; [done|]. cbn [flat_map List.map].
      rewrite outputs_app, IH.
      unfold skip_events, probe_events. cbn.
      destruct (page_exists site a); [|done]. cbn.
      by destruct (page_isRedirect site a). }
  destruct Hl as (Hm & Hc & He & Ho).
  cbn [mutations confirmations exists_queries outputs List.filter
       is_mutation is_confirmation app].
  fold (mutations (flat_map (skip_events site) l ++ [EOut MNoAncestorItem])).
  fold (confirmations (flat_map (skip_events site) l ++ [EOut MNoAncestorItem])).
  rewrite mutations_app, confirmations_app, exists_queries_app, outputs_app.
  rewrite Hm, Hc, He, Ho. cbn. by rewrite app_nil_r.
Qed.

Lemma process_page_no_ancestor_item_witness :
  let site := Scenario2.site_top_only in
  let o := CheckP1433.process_page site "A/B/C" false Scenario2.store_q3 in
  res o = Ok false /\ st o = Scenario2.store_q3
  /\ mutations (evs o) = [] /\ confirmations (evs o) = []
  /\ exists_queries (evs o) = ["A/B"; "A"]
  /\ outputs (evs o)
     = [MHeader "A/B/C"; MNoTitul; MTryingEstimate "A/B"; MTryingEstimate "A";
        MNoAncestorItem].
Proof.
  intros site o.
  apply (process_page_no_ancestor_item site "A/B/C" "Q3" false Scenario2.store_q3).
  - reflexivity.
  - reflexivity.
  - vm_compute. lia.
  - intros j Hj. assert (j = 1 \/ j = 2) as [-> | ->] by (vm_compute in Hj; lia);
      reflexivity.
Defined.

(** ** The branch with [TITUL]: comparison with the existing claim *)

Lemma queries_are_quiet ev :
  forallb is_query ev = true ->
  mutations ev = [] /\ confirmations ev = [] /\ outputs ev = [].
Proof.
  induction ev as [|e ev IH]; [done|]. cbn [forallb].
  intros H. apply andb_true_iff in H as [He Hev].
  destruct (IH Hev) as (Hm & Hc & Ho).
  destruct e; try discriminate. unfold mutations, confirmations in *.
  cbn [List.filter is_mutation is_confirmation outputs]. by rewrite Hm, Hc, Ho.
Qed.

Lemma item_claims_after_put s item p l :
  l <> [] -> item_claims_of (put_claims s item p l) item !! p = Some l.
Proof.
  intros Hl. unfold item_claims_of, put_claims. cbn [kb].
  rewrite lookup_insert_eq. cbn [default]. unfold set_claims.
  destruct l; [done|]. apply lookup_insert_eq.
Qed.

Section TitulPath.

Variables (site : Site) (page : Title) (item : Qid) (k : nat) (q : Qid).

Hypothesis Hitem : item_fromPage site page = Some item.
Hypothesis Htitul : Py.truthy_opt (get_param site page CheckP1433.TITUL) = true.
Hypothesis Hk : 1 <= k < length (Py.split_slash page).
Hypothesis Hfar : forall j, k < j < length (Py.split_slash page) ->
                            ancestor_item site (ancestor page j) = None.
Hypothesis Hhit : ancestor_item site (ancestor page k) = Some q.

Lemma titul_path all_yes s :
  exists ev,
    CheckP1433.process_page site page all_yes s
    = after ev (CheckP1433.reconcile site item all_yes q s)
    /\ mutations ev = [] /\ confirmations ev = [].
Proof.
  set (n := length (Py.split_slash page)) in *.
  set (pre := List.map (ancestor page) (rev (seq (S k) (n - 1 - k)))).
  assert (Hpre : Forall (fun c => ancestor_item site c = None) pre).
  { apply List.Forall_forall. intros c Hc.
    apply in_map_iff in Hc. destruct Hc as (j & <- & Hj).
    apply in_rev, in_seq in Hj. apply Hfar. lia. }
  assert (Hq : item_fromPage site (resolved site (ancestor page k)) = Some q).
  { unfold ancestor_item in Hhit. by destruct (page_exists site _). }
  assert (Hg : forall tp,
    CheckP1433.guess_base_title site page tp s
    = mkOutcome (Ok (resolved site (ancestor page k))) s
                (flat_map (probe_events site) pre
                 ++ probe_events site (ancestor page k))).
  { intros tp. unfold CheckP1433.guess_base_title.
    replace (Nat.eqb (length (Py.split_slash page)) 1) with false
      by (symmetry; apply Nat.eqb_neq; fold n; lia).
    rewrite candidates_top_down_rev, (candidates_bottom_up_split _ k Hk).
    unfold bind. fold n. fold (ancestor page k).
    change (List.map (fun i => Py.join_slash (take i (Py.split_slash page)))
                     (rev (seq (S k) (n - 1 - k)))) with pre.
    rewrite (guess_loop_pass _ _ _ _ _ Hpre), (guess_loop_hit _ _ _ _ _ _ Hhit).
    unfold after. cbn [res st evs ret]. by rewrite app_nil_r. }
  set (gev := flat_map (probe_events site) pre
              ++ probe_events site (ancestor page k)) in *.
  assert (Hquiet : forallb is_query gev = true).
  { pose proof (guess_base_title_queries_only site page None s) as [_ H].
    by rewrite Hg in H. }
  apply queries_are_quiet in Hquiet as (Hm & Hc & _).
  exists ([EOut (MHeader page); EQuery (QItemFromPage page)] ++ gev
          ++ [EQuery (QItemFromPage (resolved site (ancestor page k)))]).
  split.
  - unfold CheckP1433.process_page. mstep. rewrite Hitem, Htitul. mstep.
    rewrite (bind_ok _ _ _ _ _ _ (Hg _)). unfold CheckP1433.get_item_for_page.
    mstep. rewrite Hq. reflexivity.
  - rewrite !mutations_app, !confirmations_app, Hm, Hc. done.
Qed.

Lemma reconcile_match all_yes s c l :
  item_claims_of s item !! "P1433" = Some (c :: l) ->
  ctarget c = TItem q ->
  CheckP1433.reconcile site item all_yes q s
  = mkOutcome (Ok all_yes) s [EQuery (QClaims item); EOut (MMatches q)].
Proof.
  intros Hc Ht. unfold CheckP1433.reconcile. mstep.
  unfold CheckP1433.get_publication_item. rewrite Hc, Ht. mstep.
  rewrite String.eqb_refl. mstep. reflexivity.
Qed.

(** X11. With [TITUL], when the first P1433 claim of the page's item already
    names the item of the resolved ancestor, the page is reported as matching
    and nothing is asked or edited, whatever other claims follow. *)
Theorem process_page_match_is_noop (all_yes : bool) (s : Store) (c : Claim)
        (l : list Claim) :
  let o := CheckP1433.process_page site page all_yes s in
  item_claims_of s item !! "P1433" = Some (c :: l) ->
  ctarget c = TItem q ->
  res o = Ok all_yes /\ st o = s
  /\ mutations (evs o) = [] /\ confirmations (evs o) = []
  /\ In (MMatches q) (outputs (evs o)).
Proof.
  intros o Hc Ht. subst o.
  destruct (titul_path all_yes s) as (ev & -> & Hm & Hcf).
  rewrite (reconcile_match _ _ _ _ Hc Ht). unfold after. cbn [res st evs].
  rewrite mutations_app, confirmations_app, outputs_app, Hm, Hcf.
  repeat (split; [done|]). apply in_or_app. right. by left.
Qed.

Lemma revisit_after_match s c l :
  item_claims_of s item !! "P1433" = Some (c :: l) ->
  ctarget c = TItem q ->
  revisit_is_noop site page s.
Proof.
  intros Hc Ht all_yes. cbv zeta.
  destruct (titul_path all_yes s) as (ev & -> & Hm & Hcf).
  rewrite (reconcile_match _ _ _ _ Hc Ht). unfold after. cbn [res st evs].
  by rewrite mutations_app, confirmations_app, Hm, Hcf.
Qed.

Lemma adds_missing_cases (all_yes : bool) (s : Store) :
  let o := CheckP1433.process_page site page all_yes s in
  item_claims_of s item !! "P1433" = None ->
  (all_yes = true -> res o = Ok true)
  /\ (mutations (evs o) = []
      \/ mutations (evs o) = [EAddClaim item "P1433" q SumAdded]
         /\ revisit_is_noop site page (st o))
  /\ (all_yes = true -> mutations (evs o) <> []).
Proof.
  intros o Hnone. subst o.
  destruct (titul_path all_yes s) as (ev & -> & Hm & Hcf).
  unfold after. cbn [res st evs]. rewrite mutations_app, Hm. cbn [app].
  unfold CheckP1433.reconcile. mstep.
  unfold CheckP1433.get_publication_item. rewrite Hnone. mstep.
  assert (Hadd : forall s1, kb s1 = kb s ->
            revisit_is_noop site page
              (st (addClaim item "P1433" q SumAdded s1))).
  { intros s1 Hkb. apply (revisit_after_match _ (new_claim s1 q) []); [|done].
    unfold addClaim. cbn [st].
    assert (Hl : claims_of s1 item "P1433" = []).
    { unfold claims_of, item_claims_of in *. by rewrite Hkb, Hnone. }
    rewrite Hl. cbn [app].
    change (item_claims_of
              (put_claims s1 item "P1433" [new_claim s1 q]) item !! "P1433"
            = Some [new_claim s1 q]).
    by apply item_claims_after_put. }
  unfold CheckP1433.answer. destruct all_yes.
  - mstep. split; [done|]. split; [|done]. right. split; [done|].
    exact (Hadd s eq_refl).
  - split; [discriminate|]. split; [|discriminate].
    destruct (confirm_outcome PConfirmAdd s) as (r & rest & cev & Hc & Hcm & _).
    destruct r as [ans|e].
    + rewrite (bind_ok _ _ _ _ _ _ Hc). unfold after. cbn [res st evs].
      destruct (yes_or_all ans); mstep; rewrite mutations_app, Hcm; cbn [app].
      * right. split; [done|].
        exact (Hadd (mkStore (kb s) rest (fresh s) (always_yes s)) eq_refl).
      * by left.
    + rewrite (bind_raise _ _ _ _ _ _ Hc). cbn [evs]. by left.
Qed.


(** X12. With [TITUL], when the page's item has no P1433 claim, apply-all
    mode adds the item of the resolved ancestor; and whenever an edit is
    made (by the flag or by the operator's answer) it is that addition, and
    visiting the page again changes nothing. *)
Theorem process_page_adds_missing_then_settles (all_yes : bool) (s : Store) :
  let o := CheckP1433.process_page site page all_yes s in
  item_claims_of s item !! "P1433" = None ->
  (all_yes = true ->
   res o = Ok true /\ mutations (evs o) = [EAddClaim item "P1433" q SumAdded])
  /\ (mutations (evs o) <> [] ->
      mutations (evs o) = [EAddClaim item "P1433" q SumAdded]
      /\ revisit_is_noop site page (st o)).
Proof.
  intros o Hnone. subst o.
  destruct (adds_missing_cases all_yes s Hnone) as (Hres & Hcases & Hyes).
  split.
  - intros Hay. split; [by apply Hres|].
    destruct Hcases as [Hm | [Hm _]]; [by destruct (Hyes Hay) | exact Hm].
  - intros Hne. destruct Hcases as [Hm | Hm]; [by destruct Hne | exact Hm].
Qed.

Lemma replaces_mismatch_cases
      (all_yes : bool) (s : Store) (c : Claim) (l : list Claim) (q' : Qid) :
  let o := CheckP1433.process_page site page all_yes s in
  item_claims_of s item !! "P1433" = Some (c :: l) ->
  cprop c = "P1433" ->
  ctarget c = TItem q' ->
  q' <> q ->
  (all_yes = true -> res o = Ok true)
  /\ (mutations (evs o) = []
      \/ mutations (evs o) = [EChangeTarget item (cid c) q SumCorrected]
         /\ revisit_is_noop site page (st o))
  /\ (all_yes = true -> mutations (evs o) <> []).
Proof.
  intros o Hc Hp Ht Hne. subst o.
  destruct (titul_path all_yes s) as (ev & -> & Hm & Hcf).
  unfold after. cbn [res st evs]. rewrite mutations_app, Hm. cbn [app].
  unfold CheckP1433.reconcile. mstep.
  unfold CheckP1433.get_publication_item. rewrite Hc, Ht. mstep.
  replace (String.eqb q' q) with false by (symmetry; by apply String.eqb_neq).
  mstep.
  assert (Hchg : forall s1, kb s1 = kb s ->
            exists s2,
              changeTarget item c q SumCorrected s1
              = mkOutcome (Ok tt) s2 [EChangeTarget item (cid c) q SumCorrected]
              /\ revisit_is_noop site page s2).
  { intros s1 Hkb. unfold changeTarget.
    assert (Hl : claims_of s1 item (cprop c) = c :: l).
    { unfold claims_of, item_claims_of in *. by rewrite Hp, Hkb, Hc. }
    rewrite Hl. cbn [has_cid existsb]. rewrite Nat.eqb_refl. cbn [orb].
    eexists. split; [reflexivity|].
    cbn [List.map]. rewrite Nat.eqb_refl, Hp.
    eapply (revisit_after_match _ (retarget q c)); [|reflexivity].
    unfold retarget. rewrite Hp. by apply item_claims_after_put. }
  unfold CheckP1433.answer. destruct all_yes.
  - mstep. destruct (Hchg s eq_refl) as (s2 & Hs2 & Hnoop).
    rewrite (bind_ok _ _ _ _ _ _ Hs2). unfold after. cbn [res st evs ret].
    split; [done|]. split; [|done]. right. by split.
  - split; [discriminate|]. split; [|discriminate].
    destruct (confirm_outcome PConfirmReplace s) as (r & rest & cev & Hcc & Hcm & _).
    destruct r as [ans|e].
    + rewrite (bind_ok _ _ _ _ _ _ Hcc). unfold after. cbn [res st evs].
      destruct (yes_or_all ans); mstep; rewrite ?mutations_app, ?Hcm; cbn [app].
      * destruct (Hchg (mkStore (kb s) rest (fresh s) (always_yes s)) eq_refl)
          as (s2 & Hs2 & Hnoop).
        rewrite (bind_ok _ _ _ _ _ _ Hs2). unfold after. cbn [res st evs ret].
        right. by split.
      * by left.
    + rewrite (bind_raise _ _ _ _ _ _ Hcc). cbn [evs]. by left.
Qed.

(** X13. With [TITUL], when the first P1433 claim of the page's item names
    another item, apply-all mode retargets that claim to the item of the
    resolved ancestor; and whenever an edit is made it is that replacement,
    and visiting the page again changes nothing. *)
Theorem process_page_replaces_mismatch_then_settles
        (all_yes : bool) (s : Store) (c : Claim) (l : list Claim) (q' : Qid) :
  let o := CheckP1433.process_page site page all_yes s in
  item_claims_of s item !! "P1433" = Some (c :: l) ->
  cprop c = "P1433" ->
  ctarget c = TItem q' ->
  q' <> q ->
  (all_yes = true ->
   res o = Ok true
   /\ mutations (evs o) = [EChangeTarget item (cid c) q SumCorrected])
  /\ (mutations (evs o) <> [] ->
      mutations (evs o) = [EChangeTarget item (cid c) q SumCorrected]
      /\ revisit_is_noop site page (st o)).
Proof.
  intros o Hc Hp Ht Hne. subst o.
  destruct (replaces_mismatch_cases all_yes s c l q' Hc Hp Ht Hne)
    as (Hres & Hcases & Hyes).
  split.
  - intros Hay. split; [by apply Hres|].
    destruct Hcases as [Hm | [Hm _]]; [by destruct (Hyes Hay) | exact Hm].
  - intros Hnem. destruct Hcases as [Hm | Hm]; [by destruct Hnem | exact Hm].
Qed.

End TitulPath.

Lemma ancestor_of_titul_page :
  1 <= 1 < length (Py.split_slash "A/B")
  /\ (forall j, 1 < j < length (Py.split_slash "A/B") ->
        ancestor_item Scenario3.site_titul (ancestor "A/B" j) = None).
Proof. split; [vm_compute; lia|]. intros j Hj. vm_compute in Hj. lia. Qed.

Lemma process_page_match_is_noop_witness :
  let o := CheckP1433.process_page Scenario3.site_titul "A/B" false
                                   Scenario3.store_match in
  res o = Ok false /\ st o = Scenario3.store_match
  /\ mutations (evs o) = [] /\ confirmations (evs o) = []
  /\ In (MMatches "Q1") (outputs (evs o)).
Proof.
  destruct ancestor_of_titul_page as [Hk Hfar].
  apply (process_page_match_is_noop
           Scenario3.site_titul "A/B" "Q2" 1 "Q1" eq_refl eq_refl Hk Hfar eq_refl
           false Scenario3.store_match
           (Scenario.plain 0 "Q1") [Scenario.plain 1 "Q9"]);
    reflexivity.
Defined.

Lemma process_page_adds_missing_then_settles_witness :
  let o := CheckP1433.process_page Scenario3.site_titul "A/B" true
                                   Scenario3.store_empty in
  res o = Ok true
  /\ mutations (evs o) = [EAddClaim "Q2" "P1433" "Q1" SumAdded]
  /\ revisit_is_noop Scenario3.site_titul "A/B" (st o).
Proof.
  destruct ancestor_of_titul_page as [Hk Hfar].
  destruct (process_page_adds_missing_then_settles
              Scenario3.site_titul "A/B" "Q2" 1 "Q1" eq_refl eq_refl Hk Hfar eq_refl
              true Scenario3.store_empty eq_refl) as [Hyes Hsettle].
  destruct (Hyes eq_refl) as [Hres Hm].
  split; [exact Hres|]. split; [exact Hm|].
  apply Hsettle. discriminate.
Defined.

Lemma process_page_replaces_mismatch_then_settles_witness :
  let o := CheckP1433.process_page Scenario3.site_titul "A/B" true
                                   Scenario3.store_mismatch in
  res o = Ok true
  /\ mutations (evs o) = [EChangeTarget "Q2" 0 "Q1" SumCorrected]
  /\ revisit_is_noop Scenario3.site_titul "A/B" (st o).
Proof.
  destruct ancestor_of_titul_page as [Hk Hfar].
  assert (Hne : "Q5" <> "Q1") by discriminate.
  destruct (process_page_replaces_mismatch_then_settles
              Scenario3.site_titul "A/B" "Q2" 1 "Q1" eq_refl eq_refl Hk Hfar eq_refl
              true Scenario3.store_mismatch
              (Scenario.plain 0 "Q5") [Scenario.plain 1 "Q9"] "Q5"
              eq_refl eq_refl eq_refl Hne) as [Hyes Hsettle].
  destruct (Hyes eq_refl) as [Hres Hm].
  split; [exact Hres|]. split; [exact Hm|].
  apply Hsettle. discriminate.
Defined.

(** ** What [check_P1433.process_page] may do to the knowledge base *)

Lemma gated_quiet {A} all_yes item (o : Outcome A) :
  mutations (evs o) = [] -> gated all_yes item o.
Proof. by left. Qed.
















(** ** Deduplication in the harvester *)

Lemma same_target_ids t cs :
  same_target t cs ->
  HarvestPap1.item_target_ids cs = List.map (fun _ => t) cs.
Proof.
  induction 1 as [|c cs Hc _ IH]; [done|].
  cbn [HarvestPap1.item_target_ids List.map]. by rewrite Hc, IH.
Qed.

Lemma remove_dups_constant (t : string) (n : nat) :
  remove_dups (List.map (fun _ : Claim => t) (repeat (mkClaim 0 "" TOther ∅) (S n)))
  = [t].
Proof.
  induction n as [|n IH]; [reflexivity|].
  cbn [repeat List.map] in *. cbn [remove_dups].
  destruct (decide_rel elem_of t _) as [_|Hnot]; [exact IH|].
  exfalso. apply Hnot. by left.
Qed.

Lemma same_target_unique t cs :
  same_target t cs -> cs <> [] ->
  remove_dups (HarvestPap1.item_target_ids cs) = [t].
Proof.
  intros Hs Hne. rewrite (same_target_ids t cs Hs).
  destruct cs as [|c cs]; [done|].
  rewrite <- (remove_dups_constant t (length cs)).
  f_equal. clear. cbn [List.map repeat length]. f_equal.
  induction cs as [|d cs IH]; [done|]. cbn [List.map repeat length]. by rewrite IH.
Qed.

Lemma with_target_same t cs s :
  same_target t cs ->
  HarvestPap1.with_target t cs s = mkOutcome (Ok cs) s [].
Proof.
  induction 1 as [|c cs Hc _ IH]; [done|].
  cbn [HarvestPap1.with_target]. rewrite Hc. unfold bind. rewrite IH.
  cbn [res st evs ret]. by rewrite String.eqb_refl.
Qed.

Lemma print_removal_candidates_outcome l s :
  HarvestPap1.print_removal_candidates l s
  = mkOutcome (Ok tt) s (List.map (fun _ => EOut MRemovalCandidate) l).
Proof.
  induction l as [|c l IH]; [done|].
  cbn [HarvestPap1.print_removal_candidates List.map]. rewrite bind_output, IH.
  reflexivity.
Qed.

Lemma cleanup_silent
      (site : Site) (item : Qid) (t : Qid) (c : Claim) (l : list Claim) (s : Store) :
  same_target t (c :: l) ->
  l = [] \/ unqualified (c :: l) = [] ->
  HarvestPap1.cleanup_p1433_duplicates site item (c :: l) s
  = mkOutcome (Ok (Some c)) s [].
Proof.
  intros Hs Hq. unfold HarvestPap1.cleanup_p1433_duplicates.
  rewrite (same_target_unique t _ Hs) by done.
  change (Nat.ltb 1 (length [t])) with false. cbv iota.
  fold (unqualified (c :: l)).
  assert (Hcond : Nat.ltb 1 (length (c :: l))
                  && negb (Nat.eqb (length (unqualified (c :: l))) 0) = false).
  { destruct Hq as [-> | ->]; [done|]. cbn [length Nat.eqb negb]. apply andb_false_r. }
  rewrite Hcond. rewrite bind_ret.
  unfold bind. rewrite (with_target_same t _ s Hs). reflexivity.
Qed.

(** X15. When several claims name one item and some of them are plain, the
    operator is asked once; on any answer other than y or a nothing is
    removed and the first claim is handed on. *)
Theorem cleanup_declined_removes_nothing
        (site : Site) (item : Qid) (t : Qid) (c : Claim) (l : list Claim)
        (s : Store) (line : string) (rest : list string) :
  same_target t (c :: l) ->
  l <> [] ->
  unqualified (c :: l) <> [] ->
  stdin s = line :: rest ->
  yes_or_all (Py.lower line) = false ->
  HarvestPap1.cleanup_p1433_duplicates site item (c :: l) s
  = mkOutcome (Ok (Some c)) (with_stdin s rest)
              (removal_notice t (c :: l) ++ [EAsk PRemoveDuplicates]).
Proof.
  intros Hs Hl Hq Hin Hno. unfold HarvestPap1.cleanup_p1433_duplicates.
  rewrite (same_target_unique t _ Hs) by done.
  change (Nat.ltb 1 (length [t])) with false. cbv iota.
  fold (unqualified (c :: l)).
  assert (Hcond : Nat.ltb 1 (length (c :: l))
                  && negb (Nat.eqb (length (unqualified (c :: l))) 0) = true).
  { apply andb_true_iff. split.
    - destruct l; [done | reflexivity].
    - destruct (unqualified (c :: l)); [done | reflexivity]. }
  rewrite Hcond. rewrite bind_bind, bind_output, bind_bind.
  rewrite (bind_ok _ _ _ _ _ _ (print_removal_candidates_outcome _ s)).
  rewrite bind_bind. unfold bind at 1, input. rewrite Hin. cbn [res st evs].
  rewrite Hno. rewrite bind_ret. unfold bind.
  rewrite (with_target_same t _ _ Hs). unfold after, removal_notice, with_stdin.
  cbn [res st evs app]. by rewrite ?app_nil_r.
Qed.

Lemma cleanup_declined_removes_nothing_witness :
  let c := Scenario.plain 0 "Q100" in
  let d := Scenario.plain 1 "Q100" in
  let s := with_stdin Scenario.store_all_plain ["N"] in
  HarvestPap1.cleanup_p1433_duplicates Scenario.site_journal "Q7" [c; d] s
  = mkOutcome (Ok (Some c)) (with_stdin s [])
              (removal_notice "Q100" [c; d] ++ [EAsk PRemoveDuplicates]).
Proof.
  intros c d s.
  apply (cleanup_declined_removes_nothing
           Scenario.site_journal "Q7" "Q100" c [d] s "N" []).
  - repeat constructor.
  - discriminate.
  - discriminate.
  - reflexivity.
  - reflexivity.
Defined.

Lemma claims_of_put_claims s item p l : claims_of (put_claims s item p l) item p = l.
Proof.
  unfold claims_of, item_claims_of, put_claims. cbn [kb].
  rewrite lookup_insert_eq. cbn [default]. unfold set_claims.
  destruct l; unfold id; [by rewrite lookup_delete_eq | by rewrite lookup_insert_eq].
Qed.

Lemma has_cid_In c l : In c l -> has_cid (cid c) l = true.
Proof.
  intros H. apply existsb_exists. exists c. split; [done | apply Nat.eqb_refl].
Qed.

Lemma has_cid_filter k j l :
  has_cid k l = true -> k <> j ->
  has_cid k (List.filter (fun d => negb (Nat.eqb (cid d) j)) l) = true.
Proof.
  intros H Hne. apply existsb_exists in H as (d & Hd & Hk).
  apply Nat.eqb_eq in Hk. apply existsb_exists. exists d. split.
  - apply filter_In. split; [done|]. apply negb_true_iff, Nat.eqb_neq. congruence.
  - by apply Nat.eqb_eq.
Qed.

Lemma filter_filter {A} (f g : A -> bool) (l : list A) :
  List.filter f (List.filter g l) = List.filter (fun x => g x && f x) l.
Proof.
  induction l as [|x l IH]; [done|]. cbn [List.filter].
  destruct (g x); cbn [List.filter andb]; [destruct (f x)|]; by rewrite IH.
Qed.

Lemma remove_all_outcome item (rs : list Claim) :
  forall s l,
    claims_of s item "P1433" = l ->
    Forall (fun c => cprop c = "P1433") rs ->
    NoDup (List.map cid rs) ->
    Forall (fun c => has_cid (cid c) l = true) rs ->
    exists s',
      HarvestPap1.remove_all item rs s = mkOutcome (Ok tt) s' (removals item rs)
      /\ claims_of s' item "P1433" = List.filter (fun d => negb (cid_among rs d)) l
      /\ stdin s' = stdin s /\ always_yes s' = always_yes s.
Proof.
  induction rs as [|c rs IH]; intros s l Hl Hp Hnd Hin.
  - exists s. split; [reflexivity|]. split; [|done].
    rewrite Hl. unfold cid_among. cbn [List.map existsb negb].
    clear. induction l as [|d l IHl]; [done|]. cbn [List.filter]. by rewrite <- IHl.
  - apply Forall_cons in Hp as [Hpc Hp]. apply Forall_cons in Hin as [Hinc Hin].
    cbn [List.map] in Hnd. apply NoDup_cons in Hnd as [Hc Hnd].
    set (l1 := List.filter (fun d => negb (Nat.eqb (cid d) (cid c))) l).
    set (s1 := put_claims s item "P1433" l1).
    assert (Hrm : removeClaims item c SumDuplicateRemoved s
                  = mkOutcome (Ok tt) s1 [ERemoveClaim item (cid c) SumDuplicateRemoved]).
    { unfold removeClaims. rewrite Hpc, Hl, Hinc. reflexivity. }
    destruct (IH s1 l1) as (s' & Hs' & Hcl & Hst & Hay).
    + apply claims_of_put_claims.
    + exact Hp.
    + exact Hnd.
    + apply List.Forall_forall. intros d Hd.
      apply has_cid_filter.
      * by apply (proj1 (List.Forall_forall _ _) Hin).
      * intros Heq. apply Hc. rewrite <- Heq.
        apply list_elem_of_In, in_map. exact Hd.
    + exists s'. split; [|split; [|by split]].
      * cbn [HarvestPap1.remove_all]. rewrite (bind_ok _ _ _ _ _ _ Hrm), Hs'.
        reflexivity.
      * rewrite Hcl. unfold l1. rewrite filter_filter.
        apply List.filter_ext. intros d. unfold cid_among.
        cbn [List.map existsb]. by rewrite negb_orb.
Qed.

Lemma bind_set_always_yes {B} (b : bool) (f : unit -> M B) s :
  bind (set_always_yes b) f s = f tt (mkStore (kb s) (stdin s) (fresh s) b).
Proof.
  rewrite (bind_ok _ _ s tt (mkStore (kb s) (stdin s) (fresh s) b) []);
    [apply after_nil | reflexivity].
Qed.

Lemma cid_injective (cs : list Claim) (c d : Claim) :
  NoDup (List.map cid cs) -> In c cs -> In d cs -> cid c = cid d -> c = d.
Proof.
  induction cs as [|x cs IH]; [done|].
  cbn [List.map]. intros Hnd Hc Hd Heq. apply NoDup_cons in Hnd as [Hx Hnd].
  destruct Hc as [->|Hc], Hd as [->|Hd]; [done| | |by apply IH].
  - exfalso. apply Hx. rewrite Heq. by apply list_elem_of_In, in_map.
  - exfalso. apply Hx. rewrite <- Heq. by apply list_elem_of_In, in_map.
Qed.

Lemma NoDup_cids_filter (f : Claim -> bool) (cs : list Claim) :
  NoDup (List.map cid cs) -> NoDup (List.map cid (List.filter f cs)).
Proof.
  induction cs as [|x cs IH]; [done|].
  cbn [List.map List.filter]. intros Hnd. apply NoDup_cons in Hnd as [Hx Hnd].
  destruct (f x); [|by apply IH]. cbn [List.map]. apply NoDup_cons. split; [|by apply IH].
  intros Hin. apply Hx. apply list_elem_of_In in Hin. apply list_elem_of_In.
  apply in_map_iff in Hin as (d & Hd & Hin). apply filter_In in Hin as [Hin _].
  rewrite <- Hd. by apply in_map.
Qed.

Lemma survivors_are_the_qualified (cs : list Claim) :
  NoDup (List.map cid cs) ->
  List.filter (fun d => negb (cid_among (unqualified cs) d)) cs
  = List.filter HarvestPap1.has_qualifiers cs.
Proof.
  intros Hnd. apply List.filter_ext_in. intros d Hd.
  unfold cid_among.
  destruct (HarvestPap1.has_qualifiers d) eqn:Hq.
  - apply negb_true_iff. apply not_true_is_false. intros Hex.
    apply existsb_exists in Hex as (k & Hk & Heq). apply Nat.eqb_eq in Heq.
    apply in_map_iff in Hk as (d' & <- & Hd').
    apply filter_In in Hd' as [Hd' Hq'].
    rewrite (cid_injective cs d d' Hnd Hd Hd' Heq) in Hq. rewrite Hq in Hq'. done.
  - apply negb_false_iff, existsb_exists. exists (cid d). split.
    + apply in_map, filter_In. split; [done|]. by rewrite Hq.
    + apply Nat.eqb_refl.
Qed.

Lemma mutations_removals item rs : mutations (removals item rs) = removals item rs.
Proof.
  induction rs as [|d rs IH]; [done|].
  unfold mutations, removals in *. cbn [List.map List.filter is_mutation].
  by rewrite IH.
Qed.

Lemma mutations_removal_notice t cs : mutations (removal_notice t cs) = [].
Proof.
  unfold removal_notice, mutations. cbn [List.filter is_mutation].
  induction (unqualified cs) as [|d rs IH]; [done|]. exact IH.
Qed.

(** X16. When several claims name one item and some of them are plain, a
    removal confirmed with y or a removes exactly the plain claims: the
    item keeps its qualified claims, in their order, and nothing else.  The
    claim handed on is the first of the list as it was before the removal,
    and the answer a sets [always_yes]. *)
Theorem cleanup_confirmed_keeps_the_qualified
        (site : Site) (item : Qid) (t : Qid) (c : Claim) (l : list Claim)
        (s : Store) (line : string) (rest : list string) :
  let o := HarvestPap1.cleanup_p1433_duplicates site item (c :: l) s in
  claims_of s item "P1433" = c :: l ->
  well_formed_claims (c :: l) ->
  same_target t (c :: l) ->
  l <> [] ->
  unqualified (c :: l) <> [] ->
  stdin s = line :: rest ->
  yes_or_all (Py.lower line) = true ->
  res o = Ok (Some c)
  /\ mutations (evs o) = removals item (unqualified (c :: l))
  /\ claims_of (st o) item "P1433" = List.filter HarvestPap1.has_qualifiers (c :: l)
  /\ stdin (st o) = rest
  /\ always_yes (st o) = (String.eqb (Py.lower line) "a" || always_yes s).
Proof.
  intros o Hcl [Hprop Hnd] Hs Hl Hq Hin Hyes. subst o.
  set (cs := c :: l) in *.
  destruct (remove_all_outcome item (unqualified cs)
              (with_stdin s rest) cs) as (s1 & Hrm & Hcl1 & Hst1 & Hay1).
  { exact Hcl. }
  { apply List.Forall_forall. intros d Hd. apply filter_In in Hd as [Hd _].
    by apply (proj1 (List.Forall_forall _ _) Hprop). }
  { by apply NoDup_cids_filter. }
  { apply List.Forall_forall. intros d Hd. apply filter_In in Hd as [Hd _].
    by apply has_cid_In. }
  rewrite (survivors_are_the_qualified cs Hnd) in Hcl1.
  assert (Ho : HarvestPap1.cleanup_p1433_duplicates site item cs s
               = mkOutcome (Ok (Some c))
                   (if String.eqb (Py.lower line) "a"
                    then mkStore (kb s1) (stdin s1) (fresh s1) true else s1)
                   (removal_notice t cs ++ [EAsk PRemoveDuplicates]
                    ++ removals item (unqualified cs) ++ [EOut MDuplicatesRemoved])).
  { unfold HarvestPap1.cleanup_p1433_duplicates.
    rewrite (same_target_unique t _ Hs) by done.
    change (Nat.ltb 1 (length [t])) with false. cbv iota.
    fold (unqualified cs).
    assert (Hcond : Nat.ltb 1 (length cs)
                    && negb (Nat.eqb (length (unqualified cs)) 0) = true).
    { apply andb_true_iff. split.
      - subst cs. destruct l; [done | reflexivity].
      - destruct (unqualified cs); [done | reflexivity]. }
    rewrite Hcond. rewrite bind_bind, bind_output, bind_bind.
    rewrite (bind_ok _ _ _ _ _ _ (print_removal_candidates_outcome _ s)).
    rewrite bind_bind. unfold bind at 1, input. rewrite Hin. cbn [res st evs].
    rewrite Hyes. rewrite !bind_bind.
    rewrite (bind_ok _ _ _ _ _ _ Hrm). rewrite bind_bind, bind_output.
    destruct (String.eqb (Py.lower line) "a").
    - rewrite ?bind_bind, bind_set_always_yes.
      rewrite (bind_ok _ _ _ _ _ _ (with_target_same t _ _ Hs)).
      unfold after, removal_notice, cs, ret. cbn [res st evs app].
      by rewrite ?app_nil_r, <- ?app_assoc.
    - rewrite bind_ret.
      rewrite (bind_ok _ _ _ _ _ _ (with_target_same t _ _ Hs)).
      unfold after, removal_notice, cs, ret. cbn [res st evs app].
      by rewrite ?app_nil_r, <- ?app_assoc. }
  rewrite Ho. cbn [res st evs]. split; [done|]. split.
  - rewrite !mutations_app, mutations_removal_notice, mutations_removals.
    cbn. by rewrite app_nil_r.
  - destruct (String.eqb (Py.lower line) "a"); cbn [orb];
      unfold claims_of, item_claims_of in *; cbn [kb stdin always_yes] in *;
      by rewrite ?Hcl1, ?Hst1, ?Hay1.
Qed.

Lemma cleanup_confirmed_keeps_the_qualified_witness :
  let c := Scenario.plain 0 "Q100" in
  let d := Scenario.qualified 1 "Q100" "P155" "Q6" in
  let s := Scenario.store_plain_first in
  let o := HarvestPap1.cleanup_p1433_duplicates Scenario.site_journal "Q7" [c; d] s in
  res o = Ok (Some c)
  /\ mutations (evs o) = removals "Q7" (unqualified [c; d])
  /\ claims_of (st o) "Q7" "P1433" = List.filter HarvestPap1.has_qualifiers [c; d]
  /\ stdin (st o) = []
  /\ always_yes (st o) = (String.eqb (Py.lower "y") "a" || always_yes s).
Proof.
  intros c d s.
  apply (cleanup_confirmed_keeps_the_qualified
           Scenario.site_journal "Q7" "Q100" c [d] s "y" []).
  - reflexivity.
  - split; [repeat constructor|]. cbn [List.map cid c d Scenario.plain Scenario.qualified].
    apply NoDup_cons. split; [|apply NoDup_singleton].
    intros H. apply list_elem_of_singleton in H. discriminate.
  - repeat constructor.
  - discriminate.
  - discriminate.
  - reflexivity.
  - reflexivity.
Defined.

(** ** Qualifier attachment on a page of the harvester *)

Lemma has_qualifiers_false c :
  HarvestPap1.has_qualifiers c = false ->
  default [] (qualifiers c !! "P155") = []
  /\ default [] (qualifiers c !! "P156") = [].
Proof.
  unfold HarvestPap1.has_qualifiers. cbn [existsb]. intros H.
  apply orb_false_iff in H as [H1 H]. apply orb_false_iff in H as [H2 _].
  split.
  - by destruct (qualifiers c !! "P155") as [[|]|].
  - by destruct (qualifiers c !! "P156") as [[|]|].
Qed.

Lemma has_qualifiers_add_qual p t c :
  p = "P155" \/ p = "P156" -> HarvestPap1.has_qualifiers (add_qual p t c) = true.
Proof.
  intros Hp. unfold HarvestPap1.has_qualifiers, add_qual. cbn [existsb qualifiers].
  destruct Hp as [-> | ->].
  - rewrite lookup_insert_eq. by destruct (default [] _).
  - rewrite lookup_insert_ne by done. rewrite lookup_insert_eq.
    destruct (default [] _); cbn [app]; apply orb_true_r.
Qed.

Lemma has_qualifiers_apply_qual p o c :
  p = "P155" \/ p = "P156" ->
  HarvestPap1.has_qualifiers c = true \/ is_Some o ->
  HarvestPap1.has_qualifiers (apply_qual p o c) = true.
Proof.
  intros Hp [Hc | [t ->]]; [|by apply has_qualifiers_add_qual].
  destruct o as [t|]; [|exact Hc]. cbn [apply_qual].
  unfold HarvestPap1.has_qualifiers, add_qual in *. cbn [existsb qualifiers] in *.
  destruct Hp as [-> | ->].
  - rewrite lookup_insert_eq. by destruct (default [] _).
  - rewrite lookup_insert_ne by done. rewrite lookup_insert_eq.
    destruct (default [] _); cbn [app]; apply orb_true_r.
Qed.

(** One attachment block on an item whose only P1433 claim is [jc]. *)
Lemma attach_sibling_outcome site page item prop name missing jc s :
  claims_of s item "P1433" = [jc] ->
  cprop jc = "P1433" ->
  default [] (qualifiers jc !! prop) = [] ->
  let si := sibling_item site page name in
  exists s' ev,
    HarvestPap1.attach_sibling site item (Py.split_slash page) prop name missing jc s
    = mkOutcome (Ok (apply_qual prop si jc)) s' ev
    /\ mutations ev = qualifier_edit item jc prop si
    /\ confirmations ev = []
    /\ claims_of s' item "P1433" = [apply_qual prop si jc]
    /\ stdin s' = stdin s /\ always_yes s' = always_yes s.
Proof.
  intros Hcl Hp Hq si. subst si. unfold HarvestPap1.attach_sibling, sibling_item.
  destruct name as [n|]; [|by exists s, []].
  destruct (Py.truthy n); [|by exists s, []].
  unfold HarvestPap1.get_item_for_page. rewrite bind_q_fromPage.
  fold (sibling_title page n).
  destruct (item_fromPage site (sibling_title page n)) as [si|].
  - cbn [apply_qual qualifier_edit].
    unfold HarvestPap1.add_statement_with_qualifier. rewrite Hq. cbn [existsb].
    assert (Haq : addQualifier item jc prop si (SumQualifier prop) s
                  = mkOutcome (Ok (add_qual prop si jc))
                              (put_claims s item "P1433" [add_qual prop si jc])
                              [EAddQualifier item (cid jc) prop si (SumQualifier prop)]).
    { unfold addQualifier. rewrite Hp, Hcl. cbn [has_cid existsb List.map].
      by rewrite Nat.eqb_refl. }
    rewrite bind_bind, (bind_ok _ _ _ _ _ _ Haq), bind_bind, bind_output.
    rewrite !bind_ret, !after_after. unfold after, ret. cbn [res st evs app default from_option id].
    eexists _, _. split; [reflexivity|].
    split; [reflexivity|]. split; [reflexivity|].
    split; [apply claims_of_put_claims | by split].
  - rewrite bind_output. unfold after, ret. cbn [res st evs app].
    by exists s, [EQuery (QItemFromPage (sibling_title page n)); EOut (missing (sibling_title page n))].
Qed.

Section HarvestPage.

Variables (site : Site) (page : Title) (item : Qid).

Hypothesis Hitem : item_fromPage site page = Some item.
Hypothesis Hnav :
  Py.truthy_opt (get_param_from_template site page HarvestPap1.PREV)
  || Py.truthy_opt (get_param_from_template site page HarvestPap1.NEXT) = true.

Lemma harvest_page_start s :
  HarvestPap1.process_page site page s
  = after [EOut (MHeader page); EQuery (QItemFromPage page); EQuery (QClaims item)]
          (match HarvestPap1.get_p1433_claims (item_claims_of s item) with
           | [] => mkOutcome (Ok tt) s [EOut MNoP1433]
           | c :: l =>
               bind (HarvestPap1.cleanup_p1433_duplicates site item (c :: l))
                    (fun cleaned =>
                       match cleaned with
                       | None => ret tt
                       | Some journal_claim =>
                           if HarvestPap1.has_qualifiers journal_claim
                           then run output MAlreadyQualified; ret tt
                           else
                             match ctarget journal_claim with
                             | TOther => raise AttributeError
                             | TItem journal_qid =>
                                 run output (MPublishedIn journal_qid);
                                 let parts := Py.split_slash page in
                                 let base_title :=
                                   if Nat.ltb 1 (length parts)
                                   then Py.join_slash (take (length parts - 1) parts)
                                   else page in
                                 run output (MBaseTitle base_title);
                                 do jc <- HarvestPap1.attach_sibling site item parts "P155"
                                            (get_param_from_template site page HarvestPap1.PREV)
                                            MNoPrevItem journal_claim;
                                 do _jc <- HarvestPap1.attach_sibling site item parts "P156"
                                             (get_param_from_template site page HarvestPap1.NEXT)
                                             MNoNextItem jc;
                                 ret tt
                             end
                       end) s
           end).
Proof.
  unfold HarvestPap1.process_page.
  rewrite bind_output, bind_q_fromPage, Hitem, after_after. cbn [app].
  rewrite Hnav. cbn [negb]. rewrite bind_load_claims, after_after. cbn [app].
  destruct (HarvestPap1.get_p1433_claims (item_claims_of s item)); [|reflexivity].
  rewrite bind_output. unfold after, ret. cbn [res st evs]. reflexivity.
Qed.

(** X17. A page whose item has one P1433 claim, or several for one item
    that are all qualified, and whose first claim already carries a
    [P155]/[P156] qualifier is left alone: it is reported as already
    qualified, nothing is asked and the store is unchanged. *)
Theorem process_page_skips_qualified_claim
        (t : Qid) (c : Claim) (l : list Claim) (s : Store) :
  item_claims_of s item !! "P1433" = Some (c :: l) ->
  same_target t (c :: l) ->
  l = [] \/ unqualified (c :: l) = [] ->
  HarvestPap1.has_qualifiers c = true ->
  HarvestPap1.process_page site page s
  = mkOutcome (Ok tt) s
              [EOut (MHeader page); EQuery (QItemFromPage page);
               EQuery (QClaims item); EOut MAlreadyQualified].
Proof.
  intros Hcl Hs Hl Hq. rewrite harvest_page_start.
  unfold HarvestPap1.get_p1433_claims. rewrite Hcl. cbn [default from_option id].
  rewrite (bind_ok _ _ _ _ _ _ (cleanup_silent site item t c l s Hs Hl)).
  rewrite Hq, bind_output, !after_after. reflexivity.
Qed.

(** X18. A page whose item has a single P1433 claim without [P155]/[P156]
    qualifiers gets the item of its previous part as [P155] and the item of
    its next part as [P156], in that order, each only if the template names
    the part and its page has an item; nothing is asked, and the item's
    claim afterwards is the old one with these qualifiers.  If at least one
    qualifier was attached, harvesting the page again changes nothing. *)
Theorem process_page_attaches_siblings (c : Claim) (j : Qid) (s : Store) :
  let prev := sibling_item site page (get_param_from_template site page HarvestPap1.PREV) in
  let next := sibling_item site page (get_param_from_template site page HarvestPap1.NEXT) in
  let final := apply_qual "P156" next (apply_qual "P155" prev c) in
  let o := HarvestPap1.process_page site page s in
  item_claims_of s item !! "P1433" = Some [c] ->
  cprop c = "P1433" ->
  ctarget c = TItem j ->
  HarvestPap1.has_qualifiers c = false ->
  res o = Ok tt
  /\ mutations (evs o)
     = qualifier_edit item c "P155" prev ++ qualifier_edit item c "P156" next
  /\ confirmations (evs o) = []
  /\ claims_of (st o) item "P1433" = [final]
  /\ (is_Some prev \/ is_Some next ->
      let o' := HarvestPap1.process_page site page (st o) in
      res o' = Ok tt /\ st o' = st o /\ mutations (evs o') = []).
Proof.
  intros prev next final o Hcl Hp Ht Hq. subst o.
  destruct (has_qualifiers_false c Hq) as [Hq5 Hq6].
  assert (Hcl0 : claims_of s item "P1433" = [c]).
  { unfold claims_of. by rewrite Hcl. }
  destruct (attach_sibling_outcome site page item "P155"
              (get_param_from_template site page HarvestPap1.PREV)
              MNoPrevItem c s Hcl0 Hp Hq5)
    as (s1 & ev1 & Ha1 & Hm1 & Hc1 & Hcl1 & _).
  fold prev in Ha1, Hm1, Hcl1.
  assert (Hp1 : cprop (apply_qual "P155" prev c) = "P1433").
  { by destruct prev. }
  assert (Hq61 : default [] (qualifiers (apply_qual "P155" prev c) !! "P156") = []).
  { destruct prev; [|exact Hq6]. cbn [apply_qual add_qual qualifiers].
    by rewrite lookup_insert_ne. }
  destruct (attach_sibling_outcome site page item "P156"
              (get_param_from_template site page HarvestPap1.NEXT)
              MNoNextItem _ s1 Hcl1 Hp1 Hq61)
    as (s2 & ev2 & Ha2 & Hm2 & Hc2 & Hcl2 & _).
  fold next in Ha2, Hm2, Hcl2. fold final in Ha2, Hcl2.
  assert (Hcid : cid (apply_qual "P155" prev c) = cid c) by (by destruct prev).
  assert (Hm2' : mutations ev2 = qualifier_edit item c "P156" next).
  { rewrite Hm2. unfold qualifier_edit. by rewrite Hcid. }
  assert (Ho : HarvestPap1.process_page site page s
               = mkOutcome (Ok tt) s2
                   ([EOut (MHeader page); EQuery (QItemFromPage page);
                     EQuery (QClaims item); EOut (MPublishedIn j)]
                    ++ [EOut (MBaseTitle
                                (if Nat.ltb 1 (length (Py.split_slash page))
                                 then Py.join_slash
                                        (take (length (Py.split_slash page) - 1)
                                              (Py.split_slash page))
                                 else page))]
                    ++ ev1 ++ ev2)).
  { rewrite harvest_page_start. unfold HarvestPap1.get_p1433_claims.
    rewrite Hcl. cbn [default from_option id].
    assert (Hsame : same_target j [c]) by (by constructor).
    rewrite (bind_ok _ _ _ _ _ _ (cleanup_silent site item j c [] s Hsame (or_introl eq_refl))).
    rewrite Hq, Ht. cbv zeta. rewrite !bind_output.
    rewrite (bind_ok _ _ _ _ _ _ Ha1), (bind_ok _ _ _ _ _ _ Ha2).
    rewrite !after_after. unfold after, ret. cbn [res st evs].
    by rewrite ?app_nil_r, <- ?app_assoc. }
  rewrite Ho. cbn [res st evs]. split; [done|].
  split; [|split; [|split; [exact Hcl2|]]].
  - rewrite !mutations_app, Hm1, Hm2'. reflexivity.
  - rewrite !confirmations_app, Hc1, Hc2. reflexivity.
  - intros Hsome. cbv zeta.
    assert (Hfin : HarvestPap1.has_qualifiers final = true).
    { unfold final. destruct Hsome as [Hs|Hs].
      - apply has_qualifiers_apply_qual; [by right|]. left.
        apply has_qualifiers_apply_qual; [by left | by right].
      - apply has_qualifiers_apply_qual; [by right | by right]. }
    assert (Hclf : item_claims_of s2 item !! "P1433" = Some [final]).
    { unfold claims_of in Hcl2.
      destruct (item_claims_of s2 item !! "P1433") as [x|]; cbn in Hcl2; congruence. }
    assert (Htf : same_target j [final]).
    { constructor; [|constructor]. unfold final. destruct next, prev; exact Ht. }
    rewrite harvest_page_start.
    unfold HarvestPap1.get_p1433_claims. rewrite Hclf. cbn [default from_option id].
    rewrite (bind_ok _ _ _ _ _ _
               (cleanup_silent site item j final [] s2 Htf (or_introl eq_refl))).
    rewrite Hfin, bind_output, !after_after. by repeat split.
Qed.

End HarvestPage.

Lemma process_page_skips_qualified_claim_witness :
  HarvestPap1.process_page Scenario4.site_parts "J/P7" Scenario4.store_qualified
  = mkOutcome (Ok tt) Scenario4.store_qualified
              [EOut (MHeader "J/P7"); EQuery (QItemFromPage "J/P7");
               EQuery (QClaims "Q7"); EOut MAlreadyQualified].
Proof.
  apply (process_page_skips_qualified_claim
           Scenario4.site_parts "J/P7" "Q7" eq_refl eq_refl
           "Q100" (Scenario.qualified 0 "Q100" "P156" "Q8") []
           Scenario4.store_qualified).
  - reflexivity.
  - repeat constructor.
  - by left.
  - reflexivity.
Defined.

Lemma process_page_attaches_siblings_witness :
  let c := Scenario.plain 0 "Q100" in
  let o := HarvestPap1.process_page Scenario4.site_parts "J/P7" Scenario4.store_plain in
  res o = Ok tt
  /\ mutations (evs o) = [EAddQualifier "Q7" 0 "P155" "Q6" (SumQualifier "P155")]
  /\ confirmations (evs o) = []
  /\ claims_of (st o) "Q7" "P1433" = [add_qual "P155" "Q6" c]
  /\ (let o' := HarvestPap1.process_page Scenario4.site_parts "J/P7" (st o) in
      res o' = Ok tt /\ st o' = st o /\ mutations (evs o') = []).
Proof.
  intros c o.
  destruct (process_page_attaches_siblings
              Scenario4.site_parts "J/P7" "Q7" eq_refl eq_refl
              c "Q100" Scenario4.store_plain eq_refl eq_refl eq_refl eq_refl)
    as (Hr & Hm & Hc & Hcl & Hre).
  split; [exact Hr|]. split; [exact Hm|]. split; [exact Hc|]. split; [exact Hcl|].
  apply Hre. left. by eexists.
Defined.

(** ** What the harvester may do to the knowledge base *)

Lemma only_after {A} (P : Event -> Prop) ev (o : Outcome A) :
  mutations ev = [] ->
  Forall P (mutations (evs o)) -> Forall P (mutations (evs (after ev o))).
Proof. intros Hev Ho. unfold after. cbn [evs]. by rewrite mutations_app, Hev. Qed.

Lemma only_bind {A B} (P : Event -> Prop) (m : M A) (f : A -> M B) s :
  Forall P (mutations (evs (m s))) ->
  (forall a, res (m s) = Ok a -> Forall P (mutations (evs (f a (st (m s)))))) ->
  Forall P (mutations (evs (bind m f s))).
Proof.
  intros Hm Hf. unfold bind.
  destruct (m s) as [[a|e] s' ev]; cbn [res st evs] in *; [|exact Hm].
  rewrite mutations_app. apply Forall_app. split; [exact Hm | by apply Hf].
Qed.

Lemma bind_res_inv {A B} (m : M A) (f : A -> M B) s b :
  res (bind m f s) = Ok b ->
  exists a, res (m s) = Ok a /\ res (f a (st (m s))) = Ok b.
Proof.
  unfold bind. destruct (m s) as [[a|e] s' ev]; cbn [res st evs]; [|done].
  intros H. by exists a.
Qed.

Lemma remove_all_only (P : Event -> Prop) item rs s :
  (forall c, In c rs -> P (ERemoveClaim item (cid c) SumDuplicateRemoved)) ->
  Forall P (mutations (evs (HarvestPap1.remove_all item rs s))).
Proof.
  revert s. induction rs as [|c rs IH]; intros s HP; [constructor|].
  cbn [HarvestPap1.remove_all]. apply only_bind.
  - unfold removeClaims. destruct (has_cid _ _); cbn; [|constructor].
    constructor; [|constructor]. apply HP. by left.
  - intros _ _. apply IH. intros d Hd. apply HP. by right.
Qed.

Lemma print_values_no_mutation site cs s :
  mutations (evs (HarvestPap1.print_values site cs s)) = [].
Proof.
  revert s. induction cs as [|c cs IH]; intros s; [done|].
  cbn [HarvestPap1.print_values]. destruct (ctarget c); [|done].
  rewrite bind_output. unfold after. cbn [evs]. apply IH.
Qed.

Lemma with_target_outcome t cs s :
  exists r, HarvestPap1.with_target t cs s = mkOutcome r s []
            /\ forall l, r = Ok l -> forall c, In c l -> In c cs.
Proof.
  induction cs as [|c cs (r & Hr & Hin)].
  - exists (Ok []). split; [done|]. by intros l [= <-].
  - cbn [HarvestPap1.with_target]. destruct (ctarget c) as [q|].
    + unfold bind. rewrite Hr. cbn [res st evs]. destruct r as [l|e].
      * eexists. split; [reflexivity|]. intros l' [= <-] d Hd.
        destruct (String.eqb q t); [destruct Hd as [->|Hd]|];
          [by left | right; by apply (Hin l) | right; by apply (Hin l)].
      * eexists. split; [reflexivity|]. by intros l' [=].
    + eexists. split; [reflexivity|]. by intros l' [=].
Qed.

Lemma cleanup_hands_on_a_listed_claim site item cs s c :
  res (HarvestPap1.cleanup_p1433_duplicates site item cs s) = Ok (Some c) ->
  In c cs.
Proof.
  unfold HarvestPap1.cleanup_p1433_duplicates.
  destruct (Nat.ltb 1 _).
  - intros H. exfalso.
    apply bind_res_inv in H as (a1 & _ & H).
    apply bind_res_inv in H as (a2 & _ & H).
    apply bind_res_inv in H as (a3 & _ & H).
    apply bind_res_inv in H as (a4 & _ & H). discriminate.
  - destruct (remove_dups _) as [|t ts]; [done|].
    intros H. apply bind_res_inv in H as (a1 & _ & H).
    apply bind_res_inv in H as (l & Hl & H).
    match type of Hl with
    | res (HarvestPap1.with_target _ _ ?s') = _ =>
        destruct (with_target_outcome t cs s') as (r & Hr & Hin)
    end.
    rewrite Hr in Hl, H. cbn [res st] in Hl, H. subst r.
    destruct l as [|d l]; [done|]. injection H as <-.
    apply (Hin (d :: l) eq_refl). by left.
Qed.

Lemma cleanup_only_removes_plain (P : Event -> Prop) site item cs s :
  (forall c, In c cs -> HarvestPap1.has_qualifiers c = false ->
             P (ERemoveClaim item (cid c) SumDuplicateRemoved)) ->
  Forall P (mutations (evs (HarvestPap1.cleanup_p1433_duplicates site item cs s))).
Proof.
  intros HP. unfold HarvestPap1.cleanup_p1433_duplicates.
  destruct (Nat.ltb 1 _).
  - rewrite bind_output. apply only_after; [done|].
    apply only_bind; [by rewrite print_values_no_mutation|]. intros _ _.
    apply only_bind.
    { unfold input. destruct (stdin _); constructor. }
    intros line _. apply only_bind; [|intros; constructor].
    destruct (String.eqb _ "y"); constructor.
  - destruct (remove_dups _) as [|t ts]; [constructor|].
    apply only_bind.
    + destruct (_ && _); [|constructor].
      rewrite bind_output. apply only_after; [done|].
      apply only_bind.
      { rewrite print_removal_candidates_outcome. cbn [evs].
        induction (List.filter _ cs); [constructor | done]. }
      intros _ _. apply only_bind.
      { unfold input. destruct (stdin _); constructor. }
      intros line _. destruct (yes_or_all _); [|constructor].
      apply only_bind.
      { apply remove_all_only. intros c Hc. apply filter_In in Hc as [Hc Hq].
        apply HP; [done|]. by apply negb_true_iff. }
      intros _ _. rewrite bind_output. apply only_after; [done|].
      destruct (String.eqb _ "a"); constructor.
    + intros _ _.
      match goal with
      | |- context [bind (HarvestPap1.with_target _ _) _ ?s'] =>
          destruct (with_target_outcome t cs s') as (r & Hr & _)
      end.
      destruct r as [l|e].
      * rewrite (bind_ok _ _ _ _ _ _ Hr). destruct l; constructor.
      * rewrite (bind_raise _ _ _ _ _ _ Hr). constructor.
Qed.

Lemma add_statement_cases site item prop si jc s :
  let o := (do jc0 <- HarvestPap1.add_statement_with_qualifier
                        site item prop (Some si) (Some jc);
            ret (default jc jc0)) s in
  o = mkOutcome (Ok jc) s []
  \/ (exists s', o = mkOutcome (Ok (add_qual prop si jc)) s'
                      [EAddQualifier item (cid jc) prop si (SumQualifier prop);
                       EOut (MAddingQualifier prop si (label_cs site si))])
  \/ o = mkOutcome (Raise APIError) s [].
Proof.
  cbv zeta. unfold HarvestPap1.add_statement_with_qualifier.
  destruct (existsb _ _).
  - left. by rewrite !bind_ret.
  - destruct (has_cid (cid jc) (claims_of s item (cprop jc))) eqn:Hc.
    + right. left. eexists.
      rewrite bind_bind.
      erewrite bind_ok; [|unfold addQualifier; rewrite Hc; reflexivity].
      rewrite bind_bind, bind_output, !bind_ret, after_after. reflexivity.
    + right. right. rewrite bind_bind.
      erewrite bind_raise; [reflexivity|].
      unfold addQualifier. rewrite Hc. reflexivity.
Qed.

Lemma attach_sibling_only site item parts prop name missing jc s :
  let o := HarvestPap1.attach_sibling site item parts prop name missing jc s in
  Forall (fun e => exists t, e = EAddQualifier item (cid jc) prop t (SumQualifier prop))
         (mutations (evs o))
  /\ forall jc', res o = Ok jc' -> cid jc' = cid jc.
Proof.
  cbv zeta. unfold HarvestPap1.attach_sibling.
  destruct name as [n|];
    [|split; [constructor | intros ? H; cbn in H; by injection H as <-]].
  destruct (Py.truthy n);
    [|split; [constructor | intros ? H; cbn in H; by injection H as <-]].
  unfold HarvestPap1.get_item_for_page. rewrite bind_q_fromPage.
  set (full := Py.join_slash (take (length parts - 1) parts ++ [Py.strip n])).
  assert (Hgen : forall o : Outcome Claim,
            Forall (fun e => exists t,
                      e = EAddQualifier item (cid jc) prop t (SumQualifier prop))
                   (mutations (evs o))
            /\ (forall jc', res o = Ok jc' -> cid jc' = cid jc) ->
            Forall (fun e => exists t,
                      e = EAddQualifier item (cid jc) prop t (SumQualifier prop))
                   (mutations (evs (after [EQuery (QItemFromPage full)] o)))
            /\ (forall jc', res (after [EQuery (QItemFromPage full)] o) = Ok jc'
                            -> cid jc' = cid jc)).
  { intros o [H1 H2]. split; [by apply only_after | exact H2]. }
  apply Hgen. clear Hgen.
  destruct (item_fromPage site full) as [si|].
  - destruct (add_statement_cases site item prop si jc s)
      as [-> | [(s' & ->) | ->]]; cbn [res st evs].
    + split; [constructor | intros ? H; by injection H as <-].
    + split; [|intros ? H; by injection H as <-].
      constructor; [by exists si | constructor].
    + split; [constructor | intros ? H; discriminate].
  - rewrite bind_output. split; [constructor|].
    intros ? H; cbn in H; by injection H as <-.
Qed.

(** X19. Whatever the wiki, the knowledge base and the operator's answers,
    every edit made by one call of [harvest_pap1.process_page] is on the
    page's own item and on one of its P1433 claims that has no
    [P155]/[P156] qualifier: either the removal of that claim as a
    duplicate, or the attachment of a [P155] or [P156] qualifier to it.
    No claim is ever added or retargeted, and a qualified claim is never
    touched. *)
Theorem harvest_only_removes_plain_or_qualifies
        (site : Site) (page : Title) (s : Store) (e : Event) :
  In e (mutations (evs (HarvestPap1.process_page site page s))) ->
  exists item,
    item_fromPage site page = Some item
    /\ harvest_edit item (HarvestPap1.get_p1433_claims (item_claims_of s item)) e.
Proof.
  unfold HarvestPap1.process_page. rewrite bind_output, bind_q_fromPage, after_after.
  destruct (item_fromPage site page) as [item|] eqn:Hitem; [|intros []].
  intros He. exists item. split; [done|].
  revert e He. apply List.Forall_forall.
  apply only_after; [done|].
  destruct (negb _); [constructor|].
  rewrite bind_load_claims. apply only_after; [done|].
  set (cs := HarvestPap1.get_p1433_claims (item_claims_of s item)).
  destruct cs as [|c0 cs0] eqn:Ecs; [constructor|]. rewrite <- Ecs. clear Ecs.
  apply only_bind.
  - apply cleanup_only_removes_plain. intros c Hc Hq. exists c.
    split; [done|]. split; [done|]. by left.
  - intros [jc|] Hres; [|constructor].
    apply cleanup_hands_on_a_listed_claim in Hres.
    destruct (HarvestPap1.has_qualifiers jc) eqn:Hq; [constructor|].
    destruct (ctarget jc); [|constructor].
    rewrite !bind_output, after_after. apply only_after; [done|].
    apply only_bind.
    + eapply Forall_impl; [apply attach_sibling_only|].
      intros e (t & ->). exists jc. split; [done|]. split; [done|].
      right. exists t. by left.
    + intros jc1 Hjc1. apply attach_sibling_only in Hjc1.
      apply only_bind; [|intros; constructor].
      eapply Forall_impl; [apply attach_sibling_only|].
      intros e (t & ->). exists jc. split; [done|]. split; [done|].
      right. exists t. right. by rewrite Hjc1.
Qed.

Lemma harvest_only_removes_plain_or_qualifies_witness :
  exists item,
    item_fromPage Scenario4.site_parts "J/P7" = Some item
    /\ harvest_edit item
         (HarvestPap1.get_p1433_claims (item_claims_of Scenario4.store_plain item))
         (EAddQualifier "Q7" 0 "P155" "Q6" (SumQualifier "P155")).
Proof.
  apply (harvest_only_removes_plain_or_qualifies
           Scenario4.site_parts "J/P7" Scenario4.store_plain).
  vm_compute. left. reflexivity.
Defined.

(** ** The page stream *)

Lemma check_main_loop_passes_over site gen all_yes s :
  Forall (passed_over site) gen ->
  exists ev, CheckP1433.main_loop site gen all_yes s = mkOutcome (Ok tt) s ev
             /\ forallb is_query ev = true.
Proof.
  induction 1 as [|p gen Hp _ (ev & IH & Hev)]; [by exists []|].
  cbn [CheckP1433.main_loop]. rewrite bind_q_exists.
  destruct (page_exists site p) eqn:Hex; cbn [negb].
  - destruct Hp as [Hp|Hp]; [congruence|].
    rewrite bind_q_isRedirect, Hp, IH, after_after.
    eexists. split; [reflexivity|]. exact Hev.
  - rewrite IH. eexists. split; [reflexivity|]. exact Hev.
Qed.

Lemma harvest_main_loop_passes_over site gen s :
  Forall (passed_over site) gen ->
  exists ev, HarvestPap1.main_loop site gen s = mkOutcome (Ok tt) s ev
             /\ forallb is_query ev = true.
Proof.
  induction 1 as [|p gen Hp _ (ev & IH & Hev)]; [by exists []|].
  cbn [HarvestPap1.main_loop]. rewrite bind_q_exists.
  destruct (page_exists site p) eqn:Hex; cbn [negb].
  - destruct Hp as [Hp|Hp]; [congruence|].
    rewrite bind_q_isRedirect, Hp, IH, after_after.
    eexists. split; [reflexivity|]. exact Hev.
  - rewrite IH. eexists. split; [reflexivity|]. exact Hev.
Qed.

(** X20. Pages that do not exist and redirects are passed over by both
    scripts: a run over such pages only queries the page store; it prints
    nothing, asks nothing and edits nothing. *)
Theorem runs_pass_over_missing_pages_and_redirects
        (site : Site) (gen : list Title) (s : Store) :
  Forall (passed_over site) gen ->
  let o1 := CheckP1433.main site (Some gen) s in
  let o2 := HarvestPap1.main site (Some gen) s in
  res o1 = Ok tt /\ st o1 = s /\ forallb is_query (evs o1) = true
  /\ res o2 = Ok tt /\ kb (st o2) = kb s /\ stdin (st o2) = stdin s
  /\ forallb is_query (evs o2) = true.
Proof.
  intros Hgen o1 o2. subst o1 o2. unfold CheckP1433.main, HarvestPap1.main.
  destruct (check_main_loop_passes_over site gen false s Hgen) as (ev1 & -> & Hev1).
  rewrite bind_set_always_yes.
  destruct (harvest_main_loop_passes_over site gen
              (mkStore (kb s) (stdin s) (fresh s) false) Hgen) as (ev2 & -> & Hev2).
  by repeat split.
Qed.

Lemma runs_pass_over_missing_pages_and_redirects_witness :
  let s := Scenario.store_no_titul in
  let o1 := CheckP1433.main Scenario4.site_stream (Some ["Gone"; "Old"]) s in
  let o2 := HarvestPap1.main Scenario4.site_stream (Some ["Gone"; "Old"]) s in
  res o1 = Ok tt /\ st o1 = s /\ forallb is_query (evs o1) = true
  /\ res o2 = Ok tt /\ kb (st o2) = kb s /\ stdin (st o2) = stdin s
  /\ forallb is_query (evs o2) = true.
Proof.
  apply (runs_pass_over_missing_pages_and_redirects
           Scenario4.site_stream ["Gone"; "Old"] Scenario.store_no_titul).
  constructor; [by left|]. constructor; [by right | constructor].
Defined.

(** X21. An exception that escapes [process_page] ends the run of
    [check_P1433.main_loop]: the run fails with that exception and its trace
    stops with the trace of the failing page, so the pages after it are
    never visited. *)
Theorem check_run_stops_at_an_exception
        (site : Site) (page : Title) (rest : list Title) (all_yes : bool)
        (s : Store) (e : Exn) :
  let o := CheckP1433.process_page site page all_yes s in
  let whole := CheckP1433.main_loop site (page :: rest) all_yes s in
  page_exists site page = true ->
  page_isRedirect site page = false ->
  res o = Raise e ->
  res whole = Raise e /\ st whole = st o
  /\ evs whole = EQuery (QExists page) :: EQuery (QIsRedirect page) :: evs o.
Proof.
  intros o whole Hex Hred Hres. subst whole. cbn [CheckP1433.main_loop].
  rewrite bind_q_exists, Hex. cbn [negb]. rewrite bind_q_isRedirect, Hred, after_after.
  unfold bind. fold o. rewrite Hres. by repeat split.
Qed.

Lemma check_run_stops_at_an_exception_witness :
  let site := Scenario.site_multi_level in
  let s := Scenario.store_multi_level in
  let o := CheckP1433.process_page site "A/B/C" false s in
  let whole := CheckP1433.main_loop site ["A/B/C"; "A/B/A"] false s in
  res whole = Raise UnboundLocalError /\ st whole = st o
  /\ evs whole = EQuery (QExists "A/B/C") :: EQuery (QIsRedirect "A/B/C") :: evs o.
Proof.
  apply (check_run_stops_at_an_exception
           Scenario.site_multi_level "A/B/C" ["A/B/A"] false
           Scenario.store_multi_level UnboundLocalError); reflexivity.
Defined.

(** X22. The same holds for the harvester: an exception that escapes
    [process_page] ends [harvest_pap1.main_loop] at that page. *)
Theorem harvest_run_stops_at_an_exception
        (site : Site) (page : Title) (rest : list Title) (s : Store) (e : Exn) :
  let o := HarvestPap1.process_page site page s in
  let whole := HarvestPap1.main_loop site (page :: rest) s in
  page_exists site page = true ->
  page_isRedirect site page = false ->
  res o = Raise e ->
  res whole = Raise e /\ st whole = st o
  /\ evs whole = EQuery (QExists page) :: EQuery (QIsRedirect page) :: evs o.
Proof.
  intros o whole Hex Hred Hres. subst whole. cbn [HarvestPap1.main_loop].
  rewrite bind_q_exists, Hex. cbn [negb]. rewrite bind_q_isRedirect, Hred, after_after.
  unfold bind. fold o. rewrite Hres. by repeat split.
Qed.

Lemma harvest_run_stops_at_an_exception_witness :
  let site := Scenario.site_journal in
  let s := with_stdin Scenario.store_all_plain [] in
  let o := HarvestPap1.process_page site "J/P7" s in
  let whole := HarvestPap1.main_loop site ["J/P7"; "J/P8"] s in
  res whole = Raise EOFError /\ st whole = st o
  /\ evs whole = EQuery (QExists "J/P7") :: EQuery (QIsRedirect "J/P7") :: evs o.
Proof.
  apply (harvest_run_stops_at_an_exception
           Scenario.site_journal "J/P7" ["J/P8"]
           (with_stdin Scenario.store_all_plain []) EOFError); reflexivity.
Defined.

(** ** The multi-level guess *)

Section MultiLevel.

Variables (site : Site) (page : Title) (item : Qid) (k : nat) (ci : Qid).

Abbreviation n := (length (Py.split_slash page)) (only parsing).
Abbreviation base := (fallback_base site page k) (only parsing).
Abbreviation candidate_full := (full_candidate page (fallback_base site page k))
  (only parsing).

Hypothesis Hitem : item_fromPage site page = Some item.
Hypothesis Htitul : Py.truthy_opt (get_param site page CheckP1433.TITUL) = true.
Hypothesis Hlong : 2 < n.
Hypothesis Hk : 1 <= k < n.
Hypothesis Hnone : forall j, 1 <= j < n -> ancestor_item site (ancestor page j) = None.
Hypothesis Hex : page_exists site (ancestor page k) = true.
Hypothesis Hlow : forall j, 1 <= j < k -> page_exists site (ancestor page j) = false.
Hypothesis Hbase : item_fromPage site base = None.
Hypothesis Hprefix : Py.startswith base (parent page) = false.
Hypothesis Hcand : item_fromPage site candidate_full = Some ci.

Lemma multi_level_path all_yes s :
  exists ev,
    CheckP1433.process_page site page all_yes s
    = after ev
        ((do claims <- load_claims item;
          do current_item <- CheckP1433.get_publication_item claims;
          match current_item with
          | Some _ => raise UnboundLocalError
          | None =>
              do ans <- CheckP1433.answer all_yes (PConfirmUseFull candidate_full);
              if yes_or_all ans then
                run addClaim item "P1433" ci SumMultiLevelGuess;
                ret (CheckP1433.updated_all_yes ans all_yes)
              else ret all_yes
          end) s)
    /\ mutations ev = [] /\ confirmations ev = [].
Proof.
  assert (Hg : forall tp,
    CheckP1433.guess_base_title site page tp s
    = mkOutcome (Ok base) s
        (flat_map (probe_events site)
                  (CheckP1433.candidates_bottom_up (Py.split_slash page)))).
  { intros tp.
    assert (Hbest : best_after site
                      (CheckP1433.candidates_bottom_up (Py.split_slash page)) None
                    = Some (resolved site (ancestor page k))).
    { rewrite (candidates_bottom_up_split _ k Hk), best_after_app.
      cbn [best_after]. fold (ancestor page k). rewrite Hex.
      apply best_after_missing.
      apply List.Forall_forall. intros a Ha.
      apply in_map_iff in Ha as (j & <- & Hj). apply in_rev, in_seq in Hj.
      apply Hlow. lia. }
    unfold CheckP1433.guess_base_title.
    replace (Nat.eqb (length (Py.split_slash page)) 1) with false
      by (symmetry; apply Nat.eqb_neq; lia).
    rewrite candidates_top_down_rev. unfold bind.
    rewrite (guess_loop_all_fail _ _ _ _ (ancestors_all_fail site page Hnone)).
    cbn [res st evs ret]. rewrite Hbest, app_nil_r. reflexivity. }
  set (gev := flat_map (probe_events site)
                (CheckP1433.candidates_bottom_up (Py.split_slash page))) in *.
  assert (Hquiet : forallb is_query gev = true).
  { pose proof (guess_base_title_queries_only site page None s) as [_ H].
    by rewrite Hg in H. }
  apply queries_are_quiet in Hquiet as (Hm & Hc & _).
  exists ([EOut (MHeader page); EQuery (QItemFromPage page)] ++ gev
          ++ [EQuery (QItemFromPage base); EOut (MExpectedNotFound base);
              EOut (MTryingFull candidate_full);
              EQuery (QItemFromPage candidate_full);
              EOut (MFoundAs ci (label_cs site ci))]).
  split.
  - unfold CheckP1433.process_page. rewrite bind_output, bind_q_fromPage, Hitem.
    rewrite Htitul. cbn [negb].
    rewrite (bind_ok _ _ _ _ _ _ (Hg _)). cbv beta.
    unfold CheckP1433.get_item_for_page.
    rewrite bind_q_fromPage, Hbase. cbv beta iota. rewrite bind_output. cbv beta.
    unfold CheckP1433.multi_level_guess.
    replace (Nat.ltb 2 n) with true by (symmetry; by apply Nat.ltb_lt).
    change (Py.join_slash (take (n - 1) (Py.split_slash page))) with (parent page).
    rewrite Hprefix. cbn [negb].
    change (parent page ++ "/" ++ base)%string with candidate_full.
    rewrite bind_bind, bind_output. cbv beta.
    unfold CheckP1433.get_item_for_page.
    rewrite bind_bind, bind_q_fromPage, Hcand. cbv beta iota.
    rewrite bind_bind, bind_output. cbv beta. rewrite !after_after.
    apply (f_equal2 after); [cbn [app]; by rewrite <- ?app_assoc|].
    rewrite !bind_bind. apply bind_cong; [done|]. intros claims s1.
    rewrite !bind_bind. apply bind_cong; [done|]. intros [cur|] s2.
    + by rewrite bind_raise_now.
    + rewrite !bind_bind. apply bind_cong; [done|]. intros ans s3.
      destruct (yes_or_all ans).
      * rewrite !bind_bind. apply bind_cong; [done|]. intros [] s4.
        by rewrite !bind_ret.
      * by rewrite !bind_ret.
  - rewrite !mutations_app, !confirmations_app, Hm, Hc. done.
Qed.

(** X23. The multi-level guess (a page of more than two segments whose
    hierarchy gives a base title without item, not an extension of the
    parent's title, and for which parent + "/" + base title has an item):
    when the page's item has no P1433 claim, apply-all mode adds the
    candidate's item; when the first P1433 claim has any item as target,
    the comparison with the unbound [cand_item] raises [UnboundLocalError]
    before anything is asked or edited. *)
Theorem multi_level_guess_adds_or_raises (all_yes : bool) (s : Store) :
  let o := CheckP1433.process_page site page all_yes s in
  (item_claims_of s item !! "P1433" = None -> all_yes = true ->
   res o = Ok true
   /\ mutations (evs o) = [EAddClaim item "P1433" ci SumMultiLevelGuess])
  /\ (forall c l q,
        item_claims_of s item !! "P1433" = Some (c :: l) ->
        ctarget c = TItem q ->
        res o = Raise UnboundLocalError
        /\ st o = s /\ mutations (evs o) = [] /\ confirmations (evs o) = []).
Proof.
  intros o. subst o.
  destruct (multi_level_path all_yes s) as (ev & -> & Hm & Hc).
  unfold after. cbn [res st evs]. rewrite mutations_app, confirmations_app, Hm, Hc.
  cbn [app]. rewrite bind_load_claims. unfold CheckP1433.get_publication_item.
  split.
  - intros Hnoclaim ->. rewrite Hnoclaim. rewrite bind_ret.
    unfold CheckP1433.answer. rewrite bind_ret. cbn [yes_or_all String.eqb orb].
    by split.
  - intros c l q Hcl Ht. rewrite Hcl, Ht, bind_ret. by repeat split.
Qed.

End MultiLevel.

Lemma multi_level_guess_adds_or_raises_witness :
  let site := Scenario.site_multi_level in
  let o := CheckP1433.process_page site "A/B/C" true
             (Scenario.store_of [("Q1", [])] [] 0) in
  let o' := CheckP1433.process_page site "A/B/C" true Scenario.store_multi_level in
  res o = Ok true
  /\ mutations (evs o) = [EAddClaim "Q1" "P1433" "Q7" SumMultiLevelGuess]
  /\ res o' = Raise UnboundLocalError
  /\ st o' = Scenario.store_multi_level
  /\ mutations (evs o') = [] /\ confirmations (evs o') = [].
Proof.
  intros site o o'.
  assert (Hlong : 2 < length (Py.split_slash "A/B/C")) by (vm_compute; lia).
  assert (Hk : 1 <= 1 < length (Py.split_slash "A/B/C")) by (vm_compute; lia).
  assert (Hnone : forall j, 1 <= j < length (Py.split_slash "A/B/C") ->
                    ancestor_item site (ancestor "A/B/C" j) = None).
  { intros j Hj. assert (j = 1 \/ j = 2) as [-> | ->] by (vm_compute in Hj; lia);
      reflexivity. }
  assert (Hlow : forall j, 1 <= j < 1 -> page_exists site (ancestor "A/B/C" j) = false)
    by (intros; lia).
  destruct (multi_level_guess_adds_or_raises
              site "A/B/C" "Q1" 1 "Q7" eq_refl eq_refl Hlong Hk Hnone eq_refl Hlow
              eq_refl eq_refl eq_refl true (Scenario.store_of [("Q1", [])] [] 0))
    as [Hadd _].
  destruct (multi_level_guess_adds_or_raises
              site "A/B/C" "Q1" 1 "Q7" eq_refl eq_refl Hlong Hk Hnone eq_refl Hlow
              eq_refl eq_refl eq_refl true Scenario.store_multi_level)
    as [_ Hraise].
  destruct (Hadd eq_refl eq_refl) as [H1 H2].
  destruct (Hraise (Scenario.plain 0 "Q7") [] "Q7" eq_refl eq_refl)
    as (H3 & H4 & H5 & H6).
  split; [exact H1|]. split; [exact H2|]. split; [exact H3|].
  split; [exact H4|]. split; [exact H5 | exact H6].
Defined.

(** ** The search for similar titles *)




Section SimilarTitles.

Variables (site : Site) (item : Qid) (base : Title).





End SimilarTitles.


